(** * SPARK voice-intake dialog controller: stage machine and GBP speech guard

    A shallow embedding of the two drafts of the call controller:

    - [Server]  follows [src/server.js] (the staged machine);
    - [Draft]   follows [src/unnamed/part_000] (the earlier, flat draft).

    A JavaScript string is held as its UTF-8 text ([String.string]); the
    string operations used by the code are embedded on it, code point by
    code point:
    - [toLowerCase] lower-cases every code point by the Unicode case mappings
      (U+212A KELVIN SIGN becomes k, U+0130 becomes i and U+0307, U+03A3
      becomes the final or the medial sigma by its context);
    - [trim] removes, at both ends, the code points that ECMAScript counts as
      white space or line terminators (U+00A0, U+FEFF, U+2028, U+3000 and
      the other space separators with the six ASCII ones);
    - [includes] is the substring test of [String.prototype.includes]; on
      well-formed text an occurrence of UTF-8 text falls on code point
      boundaries, as an occurrence of UTF-16 text does.
    Strings with unpaired surrogates have no UTF-8 text and are not covered.

    The session object of a call ([{ transcript, stage, data }]) is a record;
    [data], a JavaScript object used as a dictionary of string fields, is a
    [gmap string string]; the module-level [callState] Map is a [gmap] from
    the call identifier to the session. The handlers mutate the session object
    that the Map holds, so every handler returns the Map with the mutated
    session stored under the caller's key. *)

From Stdlib Require Import Strings.String Strings.Ascii Lists.List Bool.Bool Arith.PeanoNat NArith.
From stdpp Require Import base option gmap strings pretty list fin_maps.

Local Open Scope string_scope.

(** ** Unicode data used by the string operations *)

Module Unicode.

Local Open Scope N_scope.

(** *** UTF-8 *)

Definition byteOf (a : ascii) : N := N_of_ascii a.
Definition ofByte (n : N) : ascii := ascii_of_N n.

Definition isContinuation (b : N) : bool := (0x80 <=? b) && (b <=? 0xBF).

(** A byte that is not part of a well-formed sequence is carried through as
    a value above the code points. *)
Definition rawByte (b : N) : N := 0x110000 + b.

(** The code points of a UTF-8 text (well-formed sequences only: shortest
    form, no surrogates, at most U+10FFFF). *)
Fixpoint decode (s : string) : list N :=
  match s with
  | EmptyString => []
  | String a0 s1 =>
      let b0 := byteOf a0 in
      if b0 <? 0x80 then b0 :: decode s1
      else
        match s1 with
        | EmptyString => [rawByte b0]
        | String a1 s2 =>
            let b1 := byteOf a1 in
            if (0xC2 <=? b0) && (b0 <=? 0xDF) && isContinuation b1
            then ((b0 - 0xC0) * 64 + (b1 - 0x80)) :: decode s2
            else
              match s2 with
              | EmptyString => rawByte b0 :: decode s1
              | String a2 s3 =>
                  let b2 := byteOf a2 in
                  let cp3 := (b0 - 0xE0) * 4096 + (b1 - 0x80) * 64 + (b2 - 0x80) in
                  if (0xE0 <=? b0) && (b0 <=? 0xEF)
                     && isContinuation b1 && isContinuation b2
                     && (0x800 <=? cp3)
                     && negb ((0xD800 <=? cp3) && (cp3 <=? 0xDFFF))
                  then cp3 :: decode s3
                  else
                    match s3 with
                    | EmptyString => rawByte b0 :: decode s1
                    | String a3 s4 =>
                        let b3 := byteOf a3 in
                        let cp4 := (b0 - 0xF0) * 262144 + (b1 - 0x80) * 4096
                                   + (b2 - 0x80) * 64 + (b3 - 0x80) in
                        if (0xF0 <=? b0) && (b0 <=? 0xF4)
                           && isContinuation b1 && isContinuation b2
                           && isContinuation b3
                           && (0x10000 <=? cp4) && (cp4 <=? 0x10FFFF)
                        then cp4 :: decode s4
                        else rawByte b0 :: decode s1
                    end
              end
        end
  end.

Definition encodeOne (cp : N) : string :=
  if cp <? 0x80 then String (ofByte cp) EmptyString
  else if cp <? 0x800 then
    String (ofByte (0xC0 + cp / 64))
      (String (ofByte (0x80 + cp mod 64)) EmptyString)
  else if cp <? 0x10000 then
    String (ofByte (0xE0 + cp / 4096))
      (String (ofByte (0x80 + (cp / 64) mod 64))
         (String (ofByte (0x80 + cp mod 64)) EmptyString))
  else if cp <? 0x110000 then
    String (ofByte (0xF0 + cp / 262144))
      (String (ofByte (0x80 + (cp / 4096) mod 64))
         (String (ofByte (0x80 + (cp / 64) mod 64))
            (String (ofByte (0x80 + cp mod 64)) EmptyString)))
  else String (ofByte (cp - 0x110000)) EmptyString.

Fixpoint encode (l : list N) : string :=
  match l with
  | [] => EmptyString
  | cp :: l' => encodeOne cp +:+ encode l'
  end.

(** *** Case mapping (Unicode 14.0: UnicodeData, SpecialCasing,
        DerivedCoreProperties) *)

(** The simple lower-case mappings, as runs [(first, last, step, image of
    first)] in increasing order of [first]: the code points [first],
    [first + step], ..., [last] map to the image of [first] plus their
    distance from [first]. *)
Definition lowerRuns : list (N * N * N * N) :=
  [(0x41, 0x5A, 1, 0x61); (0xC0, 0xD6, 1, 0xE0); (0xD8, 0xDE, 1, 0xF8); (0x100, 0x12E, 2, 0x101);
   (0x132, 0x136, 2, 0x133); (0x139, 0x147, 2, 0x13A); (0x14A, 0x176, 2, 0x14B); (0x178, 0x178, 1, 0xFF);
   (0x179, 0x17D, 2, 0x17A); (0x181, 0x181, 1, 0x253); (0x182, 0x184, 2, 0x183); (0x186, 0x186, 1, 0x254);
   (0x187, 0x187, 1, 0x188); (0x189, 0x18A, 1, 0x256); (0x18B, 0x18B, 1, 0x18C); (0x18E, 0x18E, 1, 0x1DD);
   (0x18F, 0x18F, 1, 0x259); (0x190, 0x190, 1, 0x25B); (0x191, 0x191, 1, 0x192); (0x193, 0x193, 1, 0x260);
   (0x194, 0x194, 1, 0x263); (0x196, 0x196, 1, 0x269); (0x197, 0x197, 1, 0x268); (0x198, 0x198, 1, 0x199);
   (0x19C, 0x19C, 1, 0x26F); (0x19D, 0x19D, 1, 0x272); (0x19F, 0x19F, 1, 0x275); (0x1A0, 0x1A4, 2, 0x1A1);
   (0x1A6, 0x1A6, 1, 0x280); (0x1A7, 0x1A7, 1, 0x1A8); (0x1A9, 0x1A9, 1, 0x283); (0x1AC, 0x1AC, 1, 0x1AD);
   (0x1AE, 0x1AE, 1, 0x288); (0x1AF, 0x1AF, 1, 0x1B0); (0x1B1, 0x1B2, 1, 0x28A); (0x1B3, 0x1B5, 2, 0x1B4);
   (0x1B7, 0x1B7, 1, 0x292); (0x1B8, 0x1B8, 1, 0x1B9); (0x1BC, 0x1BC, 1, 0x1BD); (0x1C4, 0x1C4, 1, 0x1C6);
   (0x1C5, 0x1C5, 1, 0x1C6); (0x1C7, 0x1C7, 1, 0x1C9); (0x1C8, 0x1C8, 1, 0x1C9); (0x1CA, 0x1CA, 1, 0x1CC);
   (0x1CB, 0x1DB, 2, 0x1CC); (0x1DE, 0x1EE, 2, 0x1DF); (0x1F1, 0x1F1, 1, 0x1F3); (0x1F2, 0x1F4, 2, 0x1F3);
   (0x1F6, 0x1F6, 1, 0x195); (0x1F7, 0x1F7, 1, 0x1BF); (0x1F8, 0x21E, 2, 0x1F9); (0x220, 0x220, 1, 0x19E);
   (0x222, 0x232, 2, 0x223); (0x23A, 0x23A, 1, 0x2C65); (0x23B, 0x23B, 1, 0x23C); (0x23D, 0x23D, 1, 0x19A);
   (0x23E, 0x23E, 1, 0x2C66); (0x241, 0x241, 1, 0x242); (0x243, 0x243, 1, 0x180); (0x244, 0x244, 1, 0x289);
   (0x245, 0x245, 1, 0x28C); (0x246, 0x24E, 2, 0x247); (0x370, 0x372, 2, 0x371); (0x376, 0x376, 1, 0x377);
   (0x37F, 0x37F, 1, 0x3F3); (0x386, 0x386, 1, 0x3AC); (0x388, 0x38A, 1, 0x3AD); (0x38C, 0x38C, 1, 0x3CC);
   (0x38E, 0x38F, 1, 0x3CD); (0x391, 0x3A1, 1, 0x3B1); (0x3A3, 0x3AB, 1, 0x3C3); (0x3CF, 0x3CF, 1, 0x3D7);
   (0x3D8, 0x3EE, 2, 0x3D9); (0x3F4, 0x3F4, 1, 0x3B8); (0x3F7, 0x3F7, 1, 0x3F8); (0x3F9, 0x3F9, 1, 0x3F2);
   (0x3FA, 0x3FA, 1, 0x3FB); (0x3FD, 0x3FF, 1, 0x37B); (0x400, 0x40F, 1, 0x450); (0x410, 0x42F, 1, 0x430);
   (0x460, 0x480, 2, 0x461); (0x48A, 0x4BE, 2, 0x48B); (0x4C0, 0x4C0, 1, 0x4CF); (0x4C1, 0x4CD, 2, 0x4C2);
   (0x4D0, 0x52E, 2, 0x4D1); (0x531, 0x556, 1, 0x561); (0x10A0, 0x10C5, 1, 0x2D00); (0x10C7, 0x10C7, 1, 0x2D27);
   (0x10CD, 0x10CD, 1, 0x2D2D); (0x13A0, 0x13EF, 1, 0xAB70); (0x13F0, 0x13F5, 1, 0x13F8); (0x1C90, 0x1CBA, 1, 0x10D0);
   (0x1CBD, 0x1CBF, 1, 0x10FD); (0x1E00, 0x1E94, 2, 0x1E01); (0x1E9E, 0x1E9E, 1, 0xDF); (0x1EA0, 0x1EFE, 2, 0x1EA1);
   (0x1F08, 0x1F0F, 1, 0x1F00); (0x1F18, 0x1F1D, 1, 0x1F10); (0x1F28, 0x1F2F, 1, 0x1F20); (0x1F38, 0x1F3F, 1, 0x1F30);
   (0x1F48, 0x1F4D, 1, 0x1F40); (0x1F59, 0x1F5F, 2, 0x1F51); (0x1F68, 0x1F6F, 1, 0x1F60); (0x1F88, 0x1F8F, 1, 0x1F80);
   (0x1F98, 0x1F9F, 1, 0x1F90); (0x1FA8, 0x1FAF, 1, 0x1FA0); (0x1FB8, 0x1FB9, 1, 0x1FB0); (0x1FBA, 0x1FBB, 1, 0x1F70);
   (0x1FBC, 0x1FBC, 1, 0x1FB3); (0x1FC8, 0x1FCB, 1, 0x1F72); (0x1FCC, 0x1FCC, 1, 0x1FC3); (0x1FD8, 0x1FD9, 1, 0x1FD0);
   (0x1FDA, 0x1FDB, 1, 0x1F76); (0x1FE8, 0x1FE9, 1, 0x1FE0); (0x1FEA, 0x1FEB, 1, 0x1F7A); (0x1FEC, 0x1FEC, 1, 0x1FE5);
   (0x1FF8, 0x1FF9, 1, 0x1F78); (0x1FFA, 0x1FFB, 1, 0x1F7C); (0x1FFC, 0x1FFC, 1, 0x1FF3); (0x2126, 0x2126, 1, 0x3C9);
   (0x212A, 0x212A, 1, 0x6B); (0x212B, 0x212B, 1, 0xE5); (0x2132, 0x2132, 1, 0x214E); (0x2160, 0x216F, 1, 0x2170);
   (0x2183, 0x2183, 1, 0x2184); (0x24B6, 0x24CF, 1, 0x24D0); (0x2C00, 0x2C2F, 1, 0x2C30); (0x2C60, 0x2C60, 1, 0x2C61);
   (0x2C62, 0x2C62, 1, 0x26B); (0x2C63, 0x2C63, 1, 0x1D7D); (0x2C64, 0x2C64, 1, 0x27D); (0x2C67, 0x2C6B, 2, 0x2C68);
   (0x2C6D, 0x2C6D, 1, 0x251); (0x2C6E, 0x2C6E, 1, 0x271); (0x2C6F, 0x2C6F, 1, 0x250); (0x2C70, 0x2C70, 1, 0x252);
   (0x2C72, 0x2C72, 1, 0x2C73); (0x2C75, 0x2C75, 1, 0x2C76); (0x2C7E, 0x2C7F, 1, 0x23F); (0x2C80, 0x2CE2, 2, 0x2C81);
   (0x2CEB, 0x2CED, 2, 0x2CEC); (0x2CF2, 0x2CF2, 1, 0x2CF3); (0xA640, 0xA66C, 2, 0xA641); (0xA680, 0xA69A, 2, 0xA681);
   (0xA722, 0xA72E, 2, 0xA723); (0xA732, 0xA76E, 2, 0xA733); (0xA779, 0xA77B, 2, 0xA77A); (0xA77D, 0xA77D, 1, 0x1D79);
   (0xA77E, 0xA786, 2, 0xA77F); (0xA78B, 0xA78B, 1, 0xA78C); (0xA78D, 0xA78D, 1, 0x265); (0xA790, 0xA792, 2, 0xA791);
   (0xA796, 0xA7A8, 2, 0xA797); (0xA7AA, 0xA7AA, 1, 0x266); (0xA7AB, 0xA7AB, 1, 0x25C); (0xA7AC, 0xA7AC, 1, 0x261);
   (0xA7AD, 0xA7AD, 1, 0x26C); (0xA7AE, 0xA7AE, 1, 0x26A); (0xA7B0, 0xA7B0, 1, 0x29E); (0xA7B1, 0xA7B1, 1, 0x287);
   (0xA7B2, 0xA7B2, 1, 0x29D); (0xA7B3, 0xA7B3, 1, 0xAB53); (0xA7B4, 0xA7C2, 2, 0xA7B5); (0xA7C4, 0xA7C4, 1, 0xA794);
   (0xA7C5, 0xA7C5, 1, 0x282); (0xA7C6, 0xA7C6, 1, 0x1D8E); (0xA7C7, 0xA7C9, 2, 0xA7C8); (0xA7D0, 0xA7D0, 1, 0xA7D1);
   (0xA7D6, 0xA7D8, 2, 0xA7D7); (0xA7F5, 0xA7F5, 1, 0xA7F6); (0xFF21, 0xFF3A, 1, 0xFF41); (0x10400, 0x10427, 1, 0x10428);
   (0x104B0, 0x104D3, 1, 0x104D8); (0x10570, 0x10594, 2, 0x10597); (0x10571, 0x1057A, 1, 0x10598); (0x1057D, 0x1058A, 1, 0x105A4);
   (0x1058D, 0x10592, 1, 0x105B4); (0x10595, 0x10595, 1, 0x105BC); (0x10C80, 0x10CB2, 1, 0x10CC0); (0x118A0, 0x118BF, 1, 0x118C0);
   (0x16E40, 0x16E5F, 1, 0x16E60); (0x1E900, 0x1E921, 1, 0x1E922)].

Fixpoint lookupRun (runs : list (N * N * N * N)) (c : N) : option N :=
  match runs with
  | [] => None
  | (lo, hi, step, image) :: rest =>
      if c <? lo then None
      else if (c <=? hi) && ((c - lo) mod step =? 0) then Some (image + (c - lo))
      else lookupRun rest c
  end.

(** The lower-case mapping of one code point, out of context; U+0130 is the
    one code point with a longer unconditional mapping. *)
Definition lowerCodePoint (c : N) : list N :=
  if c =? 0x130 then [0x69; 0x307]
  else match lookupRun lowerRuns c with
       | Some l => [l]
       | None => [c]
       end.

(** Ranges [(first, last)], in increasing order. *)
Fixpoint inRanges (ranges : list (N * N)) (c : N) : bool :=
  match ranges with
  | [] => false
  | (lo, hi) :: rest =>
      if c <? lo then false
      else if c <=? hi then true
      else inRanges rest c
  end.

(** The code points with the property Case_Ignorable. *)
Definition caseIgnorableRanges : list (N * N) :=
  [(0x27, 0x27); (0x2E, 0x2E); (0x3A, 0x3A); (0x5E, 0x5E); (0x60, 0x60); (0xA8, 0xA8);
   (0xAD, 0xAD); (0xAF, 0xAF); (0xB4, 0xB4); (0xB7, 0xB8); (0x2B0, 0x36F); (0x374, 0x375);
   (0x37A, 0x37A); (0x384, 0x385); (0x387, 0x387); (0x483, 0x489); (0x559, 0x559); (0x55F, 0x55F);
   (0x591, 0x5BD); (0x5BF, 0x5BF); (0x5C1, 0x5C2); (0x5C4, 0x5C5); (0x5C7, 0x5C7); (0x5F4, 0x5F4);
   (0x600, 0x605); (0x610, 0x61A); (0x61C, 0x61C); (0x640, 0x640); (0x64B, 0x65F); (0x670, 0x670);
   (0x6D6, 0x6DD); (0x6DF, 0x6E8); (0x6EA, 0x6ED); (0x70F, 0x70F); (0x711, 0x711); (0x730, 0x74A);
   (0x7A6, 0x7B0); (0x7EB, 0x7F5); (0x7FA, 0x7FA); (0x7FD, 0x7FD); (0x816, 0x82D); (0x859, 0x85B);
   (0x888, 0x888); (0x890, 0x891); (0x898, 0x89F); (0x8C9, 0x902); (0x93A, 0x93A); (0x93C, 0x93C);
   (0x941, 0x948); (0x94D, 0x94D); (0x951, 0x957); (0x962, 0x963); (0x971, 0x971); (0x981, 0x981);
   (0x9BC, 0x9BC); (0x9C1, 0x9C4); (0x9CD, 0x9CD); (0x9E2, 0x9E3); (0x9FE, 0x9FE); (0xA01, 0xA02);
   (0xA3C, 0xA3C); (0xA41, 0xA42); (0xA47, 0xA48); (0xA4B, 0xA4D); (0xA51, 0xA51); (0xA70, 0xA71);
   (0xA75, 0xA75); (0xA81, 0xA82); (0xABC, 0xABC); (0xAC1, 0xAC5); (0xAC7, 0xAC8); (0xACD, 0xACD);
   (0xAE2, 0xAE3); (0xAFA, 0xAFF); (0xB01, 0xB01); (0xB3C, 0xB3C); (0xB3F, 0xB3F); (0xB41, 0xB44);
   (0xB4D, 0xB4D); (0xB55, 0xB56); (0xB62, 0xB63); (0xB82, 0xB82); (0xBC0, 0xBC0); (0xBCD, 0xBCD);
   (0xC00, 0xC00); (0xC04, 0xC04); (0xC3C, 0xC3C); (0xC3E, 0xC40); (0xC46, 0xC48); (0xC4A, 0xC4D);
   (0xC55, 0xC56); (0xC62, 0xC63); (0xC81, 0xC81); (0xCBC, 0xCBC); (0xCBF, 0xCBF); (0xCC6, 0xCC6);
   (0xCCC, 0xCCD); (0xCE2, 0xCE3); (0xD00, 0xD01); (0xD3B, 0xD3C); (0xD41, 0xD44); (0xD4D, 0xD4D);
   (0xD62, 0xD63); (0xD81, 0xD81); (0xDCA, 0xDCA); (0xDD2, 0xDD4); (0xDD6, 0xDD6); (0xE31, 0xE31);
   (0xE34, 0xE3A); (0xE46, 0xE4E); (0xEB1, 0xEB1); (0xEB4, 0xEBC); (0xEC6, 0xEC6); (0xEC8, 0xECD);
   (0xF18, 0xF19); (0xF35, 0xF35); (0xF37, 0xF37); (0xF39, 0xF39); (0xF71, 0xF7E); (0xF80, 0xF84);
   (0xF86, 0xF87); (0xF8D, 0xF97); (0xF99, 0xFBC); (0xFC6, 0xFC6); (0x102D, 0x1030); (0x1032, 0x1037);
   (0x1039, 0x103A); (0x103D, 0x103E); (0x1058, 0x1059); (0x105E, 0x1060); (0x1071, 0x1074); (0x1082, 0x1082);
   (0x1085, 0x1086); (0x108D, 0x108D); (0x109D, 0x109D); (0x10FC, 0x10FC); (0x135D, 0x135F); (0x1712, 0x1714);
   (0x1732, 0x1733); (0x1752, 0x1753); (0x1772, 0x1773); (0x17B4, 0x17B5); (0x17B7, 0x17BD); (0x17C6, 0x17C6);
   (0x17C9, 0x17D3); (0x17D7, 0x17D7); (0x17DD, 0x17DD); (0x180B, 0x180F); (0x1843, 0x1843); (0x1885, 0x1886);
   (0x18A9, 0x18A9); (0x1920, 0x1922); (0x1927, 0x1928); (0x1932, 0x1932); (0x1939, 0x193B); (0x1A17, 0x1A18);
   (0x1A1B, 0x1A1B); (0x1A56, 0x1A56); (0x1A58, 0x1A5E); (0x1A60, 0x1A60); (0x1A62, 0x1A62); (0x1A65, 0x1A6C);
   (0x1A73, 0x1A7C); (0x1A7F, 0x1A7F); (0x1AA7, 0x1AA7); (0x1AB0, 0x1ACE); (0x1B00, 0x1B03); (0x1B34, 0x1B34);
   (0x1B36, 0x1B3A); (0x1B3C, 0x1B3C); (0x1B42, 0x1B42); (0x1B6B, 0x1B73); (0x1B80, 0x1B81); (0x1BA2, 0x1BA5);
   (0x1BA8, 0x1BA9); (0x1BAB, 0x1BAD); (0x1BE6, 0x1BE6); (0x1BE8, 0x1BE9); (0x1BED, 0x1BED); (0x1BEF, 0x1BF1);
   (0x1C2C, 0x1C33); (0x1C36, 0x1C37); (0x1C78, 0x1C7D); (0x1CD0, 0x1CD2); (0x1CD4, 0x1CE0); (0x1CE2, 0x1CE8);
   (0x1CED, 0x1CED); (0x1CF4, 0x1CF4); (0x1CF8, 0x1CF9); (0x1D2C, 0x1D6A); (0x1D78, 0x1D78); (0x1D9B, 0x1DFF);
   (0x1FBD, 0x1FBD); (0x1FBF, 0x1FC1); (0x1FCD, 0x1FCF); (0x1FDD, 0x1FDF); (0x1FED, 0x1FEF); (0x1FFD, 0x1FFE);
   (0x200B, 0x200F); (0x2018, 0x2019); (0x2024, 0x2024); (0x2027, 0x2027); (0x202A, 0x202E); (0x2060, 0x2064);
   (0x2066, 0x206F); (0x2071, 0x2071); (0x207F, 0x207F); (0x2090, 0x209C); (0x20D0, 0x20F0); (0x2C7C, 0x2C7D);
   (0x2CEF, 0x2CF1); (0x2D6F, 0x2D6F); (0x2D7F, 0x2D7F); (0x2DE0, 0x2DFF); (0x2E2F, 0x2E2F); (0x3005, 0x3005);
   (0x302A, 0x302D); (0x3031, 0x3035); (0x303B, 0x303B); (0x3099, 0x309E); (0x30FC, 0x30FE); (0xA015, 0xA015);
   (0xA4F8, 0xA4FD); (0xA60C, 0xA60C); (0xA66F, 0xA672); (0xA674, 0xA67D); (0xA67F, 0xA67F); (0xA69C, 0xA69F);
   (0xA6F0, 0xA6F1); (0xA700, 0xA721); (0xA770, 0xA770); (0xA788, 0xA78A); (0xA7F2, 0xA7F4); (0xA7F8, 0xA7F9);
   (0xA802, 0xA802); (0xA806, 0xA806); (0xA80B, 0xA80B); (0xA825, 0xA826); (0xA82C, 0xA82C); (0xA8C4, 0xA8C5);
   (0xA8E0, 0xA8F1); (0xA8FF, 0xA8FF); (0xA926, 0xA92D); (0xA947, 0xA951); (0xA980, 0xA982); (0xA9B3, 0xA9B3);
   (0xA9B6, 0xA9B9); (0xA9BC, 0xA9BD); (0xA9CF, 0xA9CF); (0xA9E5, 0xA9E6); (0xAA29, 0xAA2E); (0xAA31, 0xAA32);
   (0xAA35, 0xAA36); (0xAA43, 0xAA43); (0xAA4C, 0xAA4C); (0xAA70, 0xAA70); (0xAA7C, 0xAA7C); (0xAAB0, 0xAAB0);
   (0xAAB2, 0xAAB4); (0xAAB7, 0xAAB8); (0xAABE, 0xAABF); (0xAAC1, 0xAAC1); (0xAADD, 0xAADD); (0xAAEC, 0xAAED);
   (0xAAF3, 0xAAF4); (0xAAF6, 0xAAF6); (0xAB5B, 0xAB5F); (0xAB69, 0xAB6B); (0xABE5, 0xABE5); (0xABE8, 0xABE8);
   (0xABED, 0xABED); (0xFB1E, 0xFB1E); (0xFBB2, 0xFBC2); (0xFE00, 0xFE0F); (0xFE13, 0xFE13); (0xFE20, 0xFE2F);
   (0xFE52, 0xFE52); (0xFE55, 0xFE55); (0xFEFF, 0xFEFF); (0xFF07, 0xFF07); (0xFF0E, 0xFF0E); (0xFF1A, 0xFF1A);
   (0xFF3E, 0xFF3E); (0xFF40, 0xFF40); (0xFF70, 0xFF70); (0xFF9E, 0xFF9F); (0xFFE3, 0xFFE3); (0xFFF9, 0xFFFB);
   (0x101FD, 0x101FD); (0x102E0, 0x102E0); (0x10376, 0x1037A); (0x10780, 0x10785); (0x10787, 0x107B0); (0x107B2, 0x107BA);
   (0x10A01, 0x10A03); (0x10A05, 0x10A06); (0x10A0C, 0x10A0F); (0x10A38, 0x10A3A); (0x10A3F, 0x10A3F); (0x10AE5, 0x10AE6);
   (0x10D24, 0x10D27); (0x10EAB, 0x10EAC); (0x10F46, 0x10F50); (0x10F82, 0x10F85); (0x11001, 0x11001); (0x11038, 0x11046);
   (0x11070, 0x11070); (0x11073, 0x11074); (0x1107F, 0x11081); (0x110B3, 0x110B6); (0x110B9, 0x110BA); (0x110BD, 0x110BD);
   (0x110C2, 0x110C2); (0x110CD, 0x110CD); (0x11100, 0x11102); (0x11127, 0x1112B); (0x1112D, 0x11134); (0x11173, 0x11173);
   (0x11180, 0x11181); (0x111B6, 0x111BE); (0x111C9, 0x111CC); (0x111CF, 0x111CF); (0x1122F, 0x11231); (0x11234, 0x11234);
   (0x11236, 0x11237); (0x1123E, 0x1123E); (0x112DF, 0x112DF); (0x112E3, 0x112EA); (0x11300, 0x11301); (0x1133B, 0x1133C);
   (0x11340, 0x11340); (0x11366, 0x1136C); (0x11370, 0x11374); (0x11438, 0x1143F); (0x11442, 0x11444); (0x11446, 0x11446);
   (0x1145E, 0x1145E); (0x114B3, 0x114B8); (0x114BA, 0x114BA); (0x114BF, 0x114C0); (0x114C2, 0x114C3); (0x115B2, 0x115B5);
   (0x115BC, 0x115BD); (0x115BF, 0x115C0); (0x115DC, 0x115DD); (0x11633, 0x1163A); (0x1163D, 0x1163D); (0x1163F, 0x11640);
   (0x116AB, 0x116AB); (0x116AD, 0x116AD); (0x116B0, 0x116B5); (0x116B7, 0x116B7); (0x1171D, 0x1171F); (0x11722, 0x11725);
   (0x11727, 0x1172B); (0x1182F, 0x11837); (0x11839, 0x1183A); (0x1193B, 0x1193C); (0x1193E, 0x1193E); (0x11943, 0x11943);
   (0x119D4, 0x119D7); (0x119DA, 0x119DB); (0x119E0, 0x119E0); (0x11A01, 0x11A0A); (0x11A33, 0x11A38); (0x11A3B, 0x11A3E);
   (0x11A47, 0x11A47); (0x11A51, 0x11A56); (0x11A59, 0x11A5B); (0x11A8A, 0x11A96); (0x11A98, 0x11A99); (0x11C30, 0x11C36);
   (0x11C38, 0x11C3D); (0x11C3F, 0x11C3F); (0x11C92, 0x11CA7); (0x11CAA, 0x11CB0); (0x11CB2, 0x11CB3); (0x11CB5, 0x11CB6);
   (0x11D31, 0x11D36); (0x11D3A, 0x11D3A); (0x11D3C, 0x11D3D); (0x11D3F, 0x11D45); (0x11D47, 0x11D47); (0x11D90, 0x11D91);
   (0x11D95, 0x11D95); (0x11D97, 0x11D97); (0x11EF3, 0x11EF4); (0x13430, 0x13438); (0x16AF0, 0x16AF4); (0x16B30, 0x16B36);
   (0x16B40, 0x16B43); (0x16F4F, 0x16F4F); (0x16F8F, 0x16F9F); (0x16FE0, 0x16FE1); (0x16FE3, 0x16FE4); (0x1AFF0, 0x1AFF3);
   (0x1AFF5, 0x1AFFB); (0x1AFFD, 0x1AFFE); (0x1BC9D, 0x1BC9E); (0x1BCA0, 0x1BCA3); (0x1CF00, 0x1CF2D); (0x1CF30, 0x1CF46);
   (0x1D167, 0x1D169); (0x1D173, 0x1D182); (0x1D185, 0x1D18B); (0x1D1AA, 0x1D1AD); (0x1D242, 0x1D244); (0x1DA00, 0x1DA36);
   (0x1DA3B, 0x1DA6C); (0x1DA75, 0x1DA75); (0x1DA84, 0x1DA84); (0x1DA9B, 0x1DA9F); (0x1DAA1, 0x1DAAF); (0x1E000, 0x1E006);
   (0x1E008, 0x1E018); (0x1E01B, 0x1E021); (0x1E023, 0x1E024); (0x1E026, 0x1E02A); (0x1E130, 0x1E13D); (0x1E2AE, 0x1E2AE);
   (0x1E2EC, 0x1E2EF); (0x1E8D0, 0x1E8D6); (0x1E944, 0x1E94B); (0x1F3FB, 0x1F3FF); (0xE0001, 0xE0001); (0xE0020, 0xE007F);
   (0xE0100, 0xE01EF)].

(** The code points with the property Cased. *)
Definition casedRanges : list (N * N) :=
  [(0x41, 0x5A); (0x61, 0x7A); (0xAA, 0xAA); (0xB5, 0xB5); (0xBA, 0xBA); (0xC0, 0xD6);
   (0xD8, 0xF6); (0xF8, 0x1BA); (0x1BC, 0x1BF); (0x1C4, 0x293); (0x295, 0x2B8); (0x2C0, 0x2C1);
   (0x2E0, 0x2E4); (0x345, 0x345); (0x370, 0x373); (0x376, 0x377); (0x37A, 0x37D); (0x37F, 0x37F);
   (0x386, 0x386); (0x388, 0x38A); (0x38C, 0x38C); (0x38E, 0x3A1); (0x3A3, 0x3F5); (0x3F7, 0x481);
   (0x48A, 0x52F); (0x531, 0x556); (0x560, 0x588); (0x10A0, 0x10C5); (0x10C7, 0x10C7); (0x10CD, 0x10CD);
   (0x10D0, 0x10FA); (0x10FD, 0x10FF); (0x13A0, 0x13F5); (0x13F8, 0x13FD); (0x1C80, 0x1C88); (0x1C90, 0x1CBA);
   (0x1CBD, 0x1CBF); (0x1D00, 0x1DBF); (0x1E00, 0x1F15); (0x1F18, 0x1F1D); (0x1F20, 0x1F45); (0x1F48, 0x1F4D);
   (0x1F50, 0x1F57); (0x1F59, 0x1F59); (0x1F5B, 0x1F5B); (0x1F5D, 0x1F5D); (0x1F5F, 0x1F7D); (0x1F80, 0x1FB4);
   (0x1FB6, 0x1FBC); (0x1FBE, 0x1FBE); (0x1FC2, 0x1FC4); (0x1FC6, 0x1FCC); (0x1FD0, 0x1FD3); (0x1FD6, 0x1FDB);
   (0x1FE0, 0x1FEC); (0x1FF2, 0x1FF4); (0x1FF6, 0x1FFC); (0x2071, 0x2071); (0x207F, 0x207F); (0x2090, 0x209C);
   (0x2102, 0x2102); (0x2107, 0x2107); (0x210A, 0x2113); (0x2115, 0x2115); (0x2119, 0x211D); (0x2124, 0x2124);
   (0x2126, 0x2126); (0x2128, 0x2128); (0x212A, 0x212D); (0x212F, 0x2134); (0x2139, 0x2139); (0x213C, 0x213F);
   (0x2145, 0x2149); (0x214E, 0x214E); (0x2160, 0x217F); (0x2183, 0x2184); (0x24B6, 0x24E9); (0x2C00, 0x2CE4);
   (0x2CEB, 0x2CEE); (0x2CF2, 0x2CF3); (0x2D00, 0x2D25); (0x2D27, 0x2D27); (0x2D2D, 0x2D2D); (0xA640, 0xA66D);
   (0xA680, 0xA69D); (0xA722, 0xA787); (0xA78B, 0xA78E); (0xA790, 0xA7CA); (0xA7D0, 0xA7D1); (0xA7D3, 0xA7D3);
   (0xA7D5, 0xA7D9); (0xA7F5, 0xA7F6); (0xA7F8, 0xA7FA); (0xAB30, 0xAB5A); (0xAB5C, 0xAB68); (0xAB70, 0xABBF);
   (0xFB00, 0xFB06); (0xFB13, 0xFB17); (0xFF21, 0xFF3A); (0xFF41, 0xFF5A); (0x10400, 0x1044F); (0x104B0, 0x104D3);
   (0x104D8, 0x104FB); (0x10570, 0x1057A); (0x1057C, 0x1058A); (0x1058C, 0x10592); (0x10594, 0x10595); (0x10597, 0x105A1);
   (0x105A3, 0x105B1); (0x105B3, 0x105B9); (0x105BB, 0x105BC); (0x10780, 0x10780); (0x10783, 0x10785); (0x10787, 0x107B0);
   (0x107B2, 0x107BA); (0x10C80, 0x10CB2); (0x10CC0, 0x10CF2); (0x118A0, 0x118DF); (0x16E40, 0x16E7F); (0x1D400, 0x1D454);
   (0x1D456, 0x1D49C); (0x1D49E, 0x1D49F); (0x1D4A2, 0x1D4A2); (0x1D4A5, 0x1D4A6); (0x1D4A9, 0x1D4AC); (0x1D4AE, 0x1D4B9);
   (0x1D4BB, 0x1D4BB); (0x1D4BD, 0x1D4C3); (0x1D4C5, 0x1D505); (0x1D507, 0x1D50A); (0x1D50D, 0x1D514); (0x1D516, 0x1D51C);
   (0x1D51E, 0x1D539); (0x1D53B, 0x1D53E); (0x1D540, 0x1D544); (0x1D546, 0x1D546); (0x1D54A, 0x1D550); (0x1D552, 0x1D6A5);
   (0x1D6A8, 0x1D6C0); (0x1D6C2, 0x1D6DA); (0x1D6DC, 0x1D6FA); (0x1D6FC, 0x1D714); (0x1D716, 0x1D734); (0x1D736, 0x1D74E);
   (0x1D750, 0x1D76E); (0x1D770, 0x1D788); (0x1D78A, 0x1D7A8); (0x1D7AA, 0x1D7C2); (0x1D7C4, 0x1D7CB); (0x1DF00, 0x1DF09);
   (0x1DF0B, 0x1DF1E); (0x1E900, 0x1E943); (0x1F130, 0x1F149); (0x1F150, 0x1F169); (0x1F170, 0x1F189)].

Definition caseIgnorable (c : N) : bool := inRanges caseIgnorableRanges c.
Definition cased (c : N) : bool := inRanges casedRanges c.

(** Past any case-ignorable code points, the next code point of [l] is
    cased. *)
Fixpoint casedNext (l : list N) : bool :=
  match l with
  | [] => false
  | c :: l' => if caseIgnorable c then casedNext l' else cased c
  end.

(** The condition Final_Sigma: a cased letter comes before (the code
    points before are given last first), and none comes after. *)
Definition finalSigma (before after : list N) : bool :=
  casedNext before && negb (casedNext after).

(** Lower-casing of the code points [rest] that follow [before]. *)
Fixpoint lowerFrom (before rest : list N) : list N :=
  match rest with
  | [] => []
  | c :: rest' =>
      ((if c =? 0x3A3
        then [if finalSigma before rest' then 0x3C2 else 0x3C3]
        else lowerCodePoint c)
       ++ lowerFrom (c :: before) rest')%list
  end.

(** *** White space *)

(** The code points that [trim] removes: WhiteSpace and LineTerminator of
    ECMAScript. *)
Definition whiteSpaceCodePoints : list N :=
  [0x9; 0xA; 0xB; 0xC; 0xD; 0x20; 0xA0; 0x1680;
   0x2000; 0x2001; 0x2002; 0x2003; 0x2004; 0x2005; 0x2006; 0x2007; 0x2008;
   0x2009; 0x200A; 0x2028; 0x2029; 0x202F; 0x205F; 0x3000; 0xFEFF].

(** Their UTF-8 forms. *)
Definition spaceSequences : list string :=
  Eval vm_compute in map encodeOne whiteSpaceCodePoints.

End Unicode.

(** ** JavaScript string operations *)

Module JsString.

(** [String.prototype.toLowerCase]: the code points of the text are
    lower-cased, U+03A3 by its context. *)
Definition toLowerCase (s : string) : string :=
  Unicode.encode (Unicode.lowerFrom [] (Unicode.decode s)).

(** [includes t x] is [t.includes(x)]: [x] occurs in [t] at some offset. *)
Fixpoint includes (t x : string) : bool :=
  String.prefix x t ||
  match t with
  | EmptyString => false
  | String _ t' => includes t' x
  end.

(** [arr.some((x) => t.includes(x))]. *)
Definition someIncluded (t : string) (arr : list string) : bool :=
  existsb (fun x => includes t x) arr.

(** The length of the white space sequence that [s] begins with, 0 when it
    begins with none. *)
Definition spaceLead (s : string) : nat :=
  match List.find (fun q => String.prefix q s) Unicode.spaceSequences with
  | Some q => String.length q
  | None => 0
  end.

(** [s] without the white space it begins with, after [skip] bytes of a
    white space sequence already found. *)
Fixpoint trimStartFrom (skip : nat) (s : string) : string :=
  match s with
  | EmptyString => EmptyString
  | String _ s' =>
      match skip with
      | S k => trimStartFrom k s'
      | O =>
          match spaceLead s with
          | O => s
          | S k => trimStartFrom k s'
          end
      end
  end.

Definition trimStart (s : string) : string := trimStartFrom 0 s.

(** [s] is one white space sequence. *)
Definition isSpaceSequence (s : string) : bool :=
  existsb (String.eqb s) Unicode.spaceSequences.

(** [s] without the white space it ends with: what is kept of the tail,
    with the byte in front, is dropped when it is a white space sequence. *)
Fixpoint trimEnd (s : string) : string :=
  match s with
  | EmptyString => EmptyString
  | String c s' =>
      let kept := String c (trimEnd s') in
      if isSpaceSequence kept then EmptyString else kept
  end.

(** [String.prototype.trim] *)
Definition trim (s : string) : string := trimEnd (trimStart s).

(** Truthiness of a string value: only the empty string is falsy. *)
Definition truthy (s : string) : bool := negb (s =? "").

(** Truthiness of a property read [obj.k]: [undefined] and the empty string
    are falsy. *)
Definition truthyField (o : option string) : bool :=
  match o with
  | Some v => truthy v
  | None => false
  end.

End JsString.

Import JsString.

(** ** TwiML documents built by [sayGather] *)

Module Twiml.

Record Say := { voice : string; language : string; sayText : string }.

Record Gather :=
  { input : string; speechTimeout : string; action : string;
    gatherMethod : string; say : Say }.

Record Redirect := { redirectMethod : string; url : string }.

(** The document of one response: a gather (with its nested say) followed
    by a redirect. *)
Record VoiceResponse := { gather : Gather; redirect : Redirect }.

(** What the caller hears. *)
Definition spoken (r : VoiceResponse) : string := sayText (say (gather r)).

End Twiml.

(** ** Sessions and requests *)

(** The session object [{ transcript, stage, data }] of one call. *)
Record Session :=
  { transcript : list string; stage : string; data : gmap string string }.

(** [state.stage = v] *)
Definition setStage (v : string) (s : Session) : Session :=
  {| transcript := transcript s; stage := v; data := data s |}.

(** [state.data.k = v] *)
Definition setData (k v : string) (s : Session) : Session :=
  {| transcript := transcript s; stage := stage s; data := <[k := v]> (data s) |}.

(** [state.transcript.push(v)] *)
Definition pushTranscript (v : string) (s : Session) : Session :=
  {| transcript := transcript s ++ [v]; stage := stage s; data := data s |}.

(** The two body fields the handlers read; [None] is a field that the
    request does not carry ([undefined]). *)
Record Request := { CallSid : option string; SpeechResult : option string }.

(** [containsDollar], the same text in both files. *)
Definition containsDollar (text : string) : bool :=
  let t := toLowerCase text in
  includes t "$" || includes t "usd" || includes t "dollar" || includes t "bucks".

(** The gather-and-redirect document of [sayGather], the same in both files
    but for the guard applied to the spoken text. *)
Definition gatherDocument (spokenText : string) : Twiml.VoiceResponse :=
  {| Twiml.gather :=
       {| Twiml.input := "speech"; Twiml.speechTimeout := "auto";
          Twiml.action := "/call/input"; Twiml.gatherMethod := "POST";
          Twiml.say := {| Twiml.voice := "alice"; Twiml.language := "en-GB";
                          Twiml.sayText := spokenText |} |};
     Twiml.redirect := {| Twiml.redirectMethod := "POST"; Twiml.url := "/call/input" |} |}.

(** ** [src/server.js] *)

Module Server.

Definition GBP_ONLY : string :=
  "Sorry, that’s in pounds. I will quote in £ only. Is the cleaning for a home or a business premises?".

Definition enforceGbpSpeech (text : string) : string :=
  if negb (truthy text) then text
  else if containsDollar text then GBP_ONLY
  else text.

Definition sayGather (text : string) : Twiml.VoiceResponse :=
  gatherDocument (enforceGbpSpeech text).

(** The [callState] Map; its key is [req.body.CallSid], which is
    [undefined] ([None]) when the request carries none. *)
Abbreviation CallState := (gmap (option string) Session).

Definition freshSession : Session :=
  {| transcript := []; stage := "start"; data := ∅ |}.

Definition getState (callState : CallState) (callSid : option string)
  : CallState * Session :=
  match callState !! callSid with
  | Some s => (callState, s)
  | None => (<[callSid := freshSession]> callState, freshSession)
  end.

Definition domesticHints : list string :=
  ["home"; "house"; "flat"; "apartment"; "studio"; "tenancy"; "landlord";
   "move out"; "move-out"].

Definition commercialHints : list string :=
  ["office"; "shop"; "warehouse"; "school"; "clinic"; "gym"; "venue"; "site";
   "business"; "restaurant"; "workplace"].

(** [includesAny(text, arr)]; [text] is [None] when the caller passes
    [undefined]. Only the text is lower-cased, the phrases are not. *)
Definition includesAny (text : option string) (arr : list string) : bool :=
  let t := toLowerCase (match text with
                        | Some v => if truthy v then v else ""
                        | None => ""
                        end) in
  existsb (fun x => includes t x) arr.

Definition detectCategory (text : string) : string :=
  let t := toLowerCase text in
  let d := someIncluded t domesticHints in
  let c := someIncluded t commercialHints in
  if d && negb c then "domestic"
  else if c && negb d then "commercial"
  else "".

Definition GREETING : string :=
  "Hi, you’re through to TotalSpark Solutions. Is the cleaning for a home or for a business premises?".
Definition DIDNT_CATCH : string :=
  "Sorry, I didn’t catch that. Is the cleaning for a home or for a business premises?".
Definition CLARIFY_CATEGORY : string :=
  "Thanks. Is it for a home, like a flat or house, or for a business, like an office or shop?".
Definition ASK_COMMERCIAL_TYPE : string :=
  "Thanks. What type of commercial cleaning do you need? For example regular commercial cleaning, deep clean, post-construction, or disinfection.".
Definition ASK_DOMESTIC_TYPE : string :=
  "Thanks. What type of domestic cleaning do you need? For example end of tenancy, deep clean, regular cleaning, post-construction, or disinfection.".
Definition ASK_JOB_TYPE : string :=
  "Is this a one-time clean or an ongoing service?".
Definition ASK_PROPERTY : string :=
  "Thanks. What’s the property type and postcode?".
Definition CLARIFY_JOB_TYPE : string :=
  "Just to confirm, is it a one-time clean, or ongoing regular visits?".
Definition ASK_ROOMS : string :=
  "Thanks. Next I will ask about rooms and any extras. For now, tell me the number of bedrooms and bathrooms.".
Definition DEFAULT_PROMPT : string :=
  "Thanks. I will ask the next detail. What’s the postcode?".

(** [app.post("/call/start")] *)
Definition callStart (callState : CallState) (req : Request)
  : CallState * Twiml.VoiceResponse :=
  let callSid := CallSid req in
  (<[callSid := {| transcript := []; stage := "need_category"; data := ∅ |}]> callState,
   sayGather GREETING).

(** The category of the [need_category] branch: [detectCategory], then the
    two direct-answer tests when it returned the empty string. *)
Definition categoryOf (speech : string) : string :=
  let category := detectCategory speech in
  if negb (truthy category) then
    let t := toLowerCase speech in
    let category :=
      if includes t "home" || includes t "domestic" then "domestic" else category in
    let category :=
      if includes t "business" || includes t "commercial" then "commercial" else category in
    category
  else category.

(** The two conditions of the [need_job_type] branch. *)
Definition oneTimeCue (speech : string) : bool :=
  let t := toLowerCase speech in
  includes t "one" || includes t "once" || includes t "one-off" || includes t "one off".

Definition regularCue (speech : string) : bool :=
  let t := toLowerCase speech in
  includes t "ongoing" || includes t "regular" || includes t "weekly"
  || includes t "monthly" || includes t "recurring".

(** The two assignments of the [need_job_type] branch, in order. *)
Definition assignJobType (speech : string) (state : Session) : Session :=
  let state :=
    if oneTimeCue speech then setData "job_type" "one_time" state else state in
  let state :=
    if regularCue speech then setData "job_type" "regular" state else state in
  state.

(** The body of [app.post("/call/input")] on the session object of the
    call, from [if (speech) state.transcript.push(speech)] on; [speech] is
    the trimmed text. *)
Definition turn (state : Session) (speech : string)
  : Session * Twiml.VoiceResponse :=
  let state := if truthy speech then pushTranscript speech state else state in
  if negb (truthy speech) then (state, sayGather DIDNT_CATCH)
  else if stage state =? "need_category" then
    let category := categoryOf speech in
    if negb (truthy category) then (state, sayGather CLARIFY_CATEGORY)
    else
      let state := setData "service_category" category state in
      let state := setStage "need_service_type" state in
      if category =? "commercial" then (state, sayGather ASK_COMMERCIAL_TYPE)
      else (state, sayGather ASK_DOMESTIC_TYPE)
  else if stage state =? "need_service_type" then
    let state := setData "service_type_raw" speech state in
    if bool_decide (data state !! "service_category" = Some "commercial") then
      let state := setData "commercial_service_type" speech state in
      let state := setData "domestic_service_type" "" state in
      let state := setStage "need_job_type" state in
      (state, sayGather ASK_JOB_TYPE)
    else
      let state := setData "domestic_service_type" speech state in
      let state := setData "commercial_service_type" "" state in
      let state := setStage "need_property_and_postcode" state in
      (state, sayGather ASK_PROPERTY)
  else if stage state =? "need_job_type" then
    let state := assignJobType speech state in
    if negb (truthyField (data state !! "job_type")) then
      (state, sayGather CLARIFY_JOB_TYPE)
    else
      let state := setStage "need_property_and_postcode" state in
      (state, sayGather ASK_PROPERTY)
  else if stage state =? "need_property_and_postcode" then
    let state := setData "property_and_postcode_raw" speech state in
    let state := setStage "next" state in
    (state, sayGather ASK_ROOMS)
  else (state, sayGather DEFAULT_PROMPT).

(** [(req.body.SpeechResult || "").trim()] *)
Definition speechOf (req : Request) : string :=
  trim (default "" (SpeechResult req)).

(** [app.post("/call/input")]: the session is looked up (or created) by
    [getState], and the handler's mutations land in the object the Map
    holds. *)
Definition callInput (callState : CallState) (req : Request)
  : CallState * Twiml.VoiceResponse :=
  let callSid := CallSid req in
  let speech := speechOf req in
  let '(callState, state) := getState callState callSid in
  let '(state, twiml) := turn state speech in
  (<[callSid := state]> callState, twiml).

End Server.

(** ** [src/unnamed/part_000] *)

Module Draft.

Definition GBP_ONLY : string :=
  "Sorry, I only quote in pounds. Is the cleaning for a home or for a business premises?".

Definition ensureGbpOnly (text : string) : string :=
  if containsDollar text then GBP_ONLY else text.

Definition sayGather (text : string) : Twiml.VoiceResponse :=
  gatherDocument (ensureGbpOnly text).

Abbreviation CallState := (gmap string Session).

(** [req.body.CallSid || `local_${Date.now()}`]; [now] is the clock reading
    of the request. *)
Definition callSidOf (req : Request) (now : N) : string :=
  let local := "local_" +:+ pretty now in
  match CallSid req with
  | Some sid => if truthy sid then sid else local
  | None => local
  end.

Definition freshSession : Session :=
  {| transcript := []; stage := "start"; data := ∅ |}.

Definition GREETING : string :=
  "Hi, you’re through to TotalSpark Solutions. Is the cleaning for a home or for a business premises?".
Definition DIDNT_CATCH : string :=
  "Sorry, I didn’t catch that. Is this for a home or a business premises?".
Definition CLARIFY_CATEGORY : string :=
  "Thanks. Is the cleaning for a home or for a business premises?".
Definition ASK_DOMESTIC_TYPE : string :=
  "What type of domestic cleaning do you need. End of tenancy, deep clean, regular cleaning, post-construction, or disinfection?".
Definition ASK_COMMERCIAL_TYPE : string :=
  "What type of commercial cleaning do you need. Regular commercial cleaning, deep clean, post-construction, or disinfection?".
Definition ASK_PROPERTY : string :=
  "Thanks. What is the property type and the postcode?".

(** [app.post("/call/start")] *)
Definition callStart (callState : CallState) (req : Request) (now : N)
  : CallState * Twiml.VoiceResponse :=
  let callSid := callSidOf req now in
  (<[callSid := freshSession]> callState, sayGather GREETING).

Definition domesticHints : list string :=
  ["home"; "house"; "flat"; "apartment"; "studio"; "tenancy"; "move out"; "landlord"].

Definition commercialHints : list string :=
  ["office"; "shop"; "warehouse"; "school"; "clinic"; "gym"; "venue"; "site";
   "business"; "restaurant"; "workplace"].

(** The guarded assignments of [service_category]. *)
Definition assignCategory (speech : string) (state : Session) : Session :=
  let lower := toLowerCase speech in
  let mentionedDomestic := someIncluded lower domesticHints in
  let mentionedCommercial := someIncluded lower commercialHints in
  if negb (truthyField (data state !! "service_category")) then
    let state :=
      if mentionedDomestic && negb mentionedCommercial
      then setData "service_category" "domestic" state else state in
    let state :=
      if mentionedCommercial && negb mentionedDomestic
      then setData "service_category" "commercial" state else state in
    state
  else state.

(** The body of [app.post("/call/input")] on the session object, from
    [if (speech) state.transcript.push(speech)] on. *)
Definition turn (state : Session) (speech : string)
  : Session * Twiml.VoiceResponse :=
  let state := if truthy speech then pushTranscript speech state else state in
  if negb (truthy speech) then (state, sayGather DIDNT_CATCH)
  else
    let state := assignCategory speech state in
    if negb (truthyField (data state !! "service_category")) then
      (state, sayGather CLARIFY_CATEGORY)
    else if negb (truthyField (data state !! "service_type")) then
      if bool_decide (data state !! "service_category" = Some "domestic")
      then (state, sayGather ASK_DOMESTIC_TYPE)
      else (state, sayGather ASK_COMMERCIAL_TYPE)
    else (state, sayGather ASK_PROPERTY).

(** [String(req.body.SpeechResult || "").trim()] *)
Definition speechOf (req : Request) : string :=
  trim (default "" (SpeechResult req)).

(** [app.post("/call/input")]: the session object (the stored one, or a
    new one) is put in the Map before the stage logic runs and is mutated
    afterwards, so the Map ends with the mutated session. *)
Definition callInput (callState : CallState) (req : Request) (now : N)
  : CallState * Twiml.VoiceResponse :=
  let callSid := callSidOf req now in
  let speech := speechOf req in
  let state := default freshSession (callState !! callSid) in
  let '(state, twiml) := turn state speech in
  (<[callSid := state]> callState, twiml).

End Draft.

Example includes_mid : includes "my home office" "home" = true.
Proof. reflexivity. Qed.

Example trim_both : trim "  deep clean " = "deep clean".
Proof. vm_compute. reflexivity. Qed.

(** U+00A0 and U+3000 are white space for [trim]; U+200B is not. *)
Example trim_no_break_space : trim " office　" = "office".
Proof. vm_compute. reflexivity. Qed.

Example trim_only_no_break_space : trim " " = "".
Proof. vm_compute. reflexivity. Qed.

Example trim_keeps_zero_width_space : trim "​office" = "​office".
Proof. vm_compute. reflexivity. Qed.

Example lower_mixed : toLowerCase "50 DOLLARS" = "50 dollars".
Proof. vm_compute. reflexivity. Qed.

(** U+212A KELVIN SIGN lower-cases to the letter k. *)
Example lower_kelvin : toLowerCase "WEEKLY" = "weekly".
Proof. vm_compute. reflexivity. Qed.

Example lower_latin1 : toLowerCase "CAFÉ, İ" = "café, i̇".
Proof. vm_compute. reflexivity. Qed.

(** U+03A3 at the end of a word, and elsewhere. *)
Example lower_final_sigma :
  toLowerCase "ΟΔΟΣ ΣΟΦΙΑΣ"
    = "οδος σοφιας".
Proof. vm_compute. reflexivity. Qed.


(** The cue tests see through letter case beyond A to Z, and the handlers
    take text of white space only for no text. *)
Example kelvin_bucks : containsDollar "MEGABUCKS" = true.
Proof. vm_compute. reflexivity. Qed.

Example kelvin_workplace : Server.detectCategory "WORKPLACE" = "commercial".
Proof. vm_compute. reflexivity. Qed.

Example kelvin_weekly : Server.regularCue "WEEKLY" = true.
Proof. vm_compute. reflexivity. Qed.

Example kelvin_phrase : Server.includesAny (Some "K") ["k"] = true.
Proof. vm_compute. reflexivity. Qed.

Example no_break_space_turn :
  Server.speechOf {| CallSid := Some "CA1"; SpeechResult := Some " " |} = "" /\
  Draft.speechOf {| CallSid := Some "CA1"; SpeechResult := Some " " |} = "" /\
  Server.speechOf {| CallSid := Some "CA1"; SpeechResult := Some " office " |}
    = "office".
Proof. vm_compute. repeat split. Qed.

(** ** Facts about the string operations *)

Section JsStringFacts.

Lemma append_cons (c : ascii) (a b : string) :
  String c a +:+ b = String c (a +:+ b).
Proof. reflexivity. Qed.

Lemma append_empty_l (b : string) : "" +:+ b = b.
Proof. reflexivity. Qed.

Lemma prefix_true_iff (x t : string) :
  String.prefix x t = true <-> exists post, t = x +:+ post.
Proof.
  revert t. induction x as [|c x IH]; intros t; simpl.
  - split; [intros _; exists t; reflexivity | intros _; now destruct t].
  - destruct t as [|c' t].
    + split; [discriminate | intros [post H]; discriminate H].
    + simpl. destruct (Ascii.ascii_dec c c') as [->|Hne].
      * rewrite IH. split; intros [post H]; exists post.
        -- rewrite append_cons. now f_equal.
        -- rewrite append_cons in H. now injection H.
      * split; [discriminate|].
        intros [post H]. rewrite append_cons in H. injection H as Hc _.
        now destruct Hne.
Qed.

(** [t.includes(x)] holds exactly when [x] sits between some prefix and
    some suffix of [t]. *)
Lemma includes_true_iff (t x : string) :
  includes t x = true <-> exists pre post, t = pre +:+ x +:+ post.
Proof.
  induction t as [|c t IH].
  - change (includes "" x) with (String.prefix x "" || false).
    rewrite orb_false_r, prefix_true_iff. split.
    + intros [post H]. exists "", post. exact H.
    + intros [pre [post H]]. destruct pre as [|c pre].
      * exists post. exact H.
      * discriminate H.
  - change (includes (String c t) x)
      with (String.prefix x (String c t) || includes t x).
    rewrite orb_true_iff, prefix_true_iff, IH. split.
    + intros [[post H]|[pre [post H]]].
      * exists "", post. exact H.
      * exists (String c pre), post. rewrite append_cons. now f_equal.
    + intros [pre [post H]]. destruct pre as [|c' pre].
      * left. exists post. exact H.
      * right. exists pre, post. rewrite append_cons in H. now injection H.
Qed.

Lemma truthy_true_iff (s : string) : truthy s = true <-> s <> "".
Proof.
  unfold truthy. rewrite negb_true_iff. split.
  - intros H ->. discriminate H.
  - intros H. apply String.eqb_neq. exact H.
Qed.

Lemma truthy_false_iff (s : string) : truthy s = false <-> s = "".
Proof.
  unfold truthy. rewrite negb_false_iff. apply String.eqb_eq.
Qed.

End JsStringFacts.

(** ** The GBP guard on spoken text *)

(** The currency markers of the guard. *)
Definition currencyMarkers : list string := ["$"; "usd"; "dollar"; "bucks"].

(** A prompt mentions a currency marker when one of them occurs in the
    lower-cased prompt. *)
Definition MentionsCurrency (text : string) : Prop :=
  exists m, In m currencyMarkers /\
            exists pre post, toLowerCase text = pre +:+ m +:+ post.

Lemma containsDollar_true_iff (text : string) :
  containsDollar text = true <-> MentionsCurrency text.
Proof.
  unfold containsDollar, MentionsCurrency, currencyMarkers. cbv zeta.
  rewrite !orb_true_iff, !includes_true_iff. cbn [In]. split.
  - intros [[[H|H]|H]|H]; eauto 8.
  - intros (m & [<-|[<-|[<-|[<-|[]]]]] & H); auto.
Qed.

Lemma containsDollar_false_iff (text : string) :
  containsDollar text = false <-> ~ MentionsCurrency text.
Proof.
  rewrite <- containsDollar_true_iff.
  destruct (containsDollar text); intuition congruence.
Qed.

Lemma mentions_currency_nonempty (text : string) :
  MentionsCurrency text -> truthy text = true.
Proof.
  intros H. apply containsDollar_true_iff in H.
  destruct text; [discriminate H | reflexivity].
Qed.

(** ** The stage machine of [src/server.js] *)

Module ServerFacts.
Import Server.

(** The session a handler will work on for [callSid]: the stored one, or
    the one [getState] creates. *)
Definition sessionOf (callState : CallState) (callSid : option string) : Session :=
  (getState callState callSid).2.

Lemma sessionOf_lookup (callState : CallState) callSid :
  sessionOf callState callSid = default freshSession (callState !! callSid).
Proof. unfold sessionOf, getState. now destruct (callState !! callSid). Qed.

Lemma sessionOf_insert (callState : CallState) callSid s :
  sessionOf (<[callSid := s]> callState) callSid = s.
Proof. now rewrite sessionOf_lookup, lookup_insert_eq. Qed.

Lemma sessionOf_insert_ne (callState : CallState) callSid sid s :
  callSid ≠ sid ->
  sessionOf (<[callSid := s]> callState) sid = sessionOf callState sid.
Proof. intros H. now rewrite !sessionOf_lookup, lookup_insert_ne. Qed.

(** The handler runs [turn] on the session of the call and stores the
    result under the call's key; no other key changes its session. *)
Lemma callInput_turn (callState : CallState) (req : Request) :
  callInput callState req =
    (<[CallSid req := (turn (sessionOf callState (CallSid req)) (speechOf req)).1]>
       (getState callState (CallSid req)).1,
     (turn (sessionOf callState (CallSid req)) (speechOf req)).2).
Proof.
  unfold callInput, sessionOf.
  destruct (getState callState (CallSid req)) as [cs s]. simpl.
  now destruct (turn s (speechOf req)).
Qed.

Lemma callInput_session (callState : CallState) (req : Request) :
  sessionOf (callInput callState req).1 (CallSid req) =
    (turn (sessionOf callState (CallSid req)) (speechOf req)).1.
Proof. rewrite callInput_turn. simpl. apply sessionOf_insert. Qed.

Lemma callInput_other (callState : CallState) (req : Request) sid :
  CallSid req ≠ sid ->
  sessionOf (callInput callState req).1 sid = sessionOf callState sid.
Proof.
  intros H. rewrite callInput_turn. simpl. rewrite sessionOf_insert_ne by exact H.
  unfold getState. destruct (callState !! CallSid req) eqn:E; simpl; [reflexivity|].
  now rewrite sessionOf_insert_ne.
Qed.

Lemma callInput_stored (callState : CallState) (req : Request) :
  (callInput callState req).1 !! CallSid req =
    Some (turn (sessionOf callState (CallSid req)) (speechOf req)).1.
Proof. rewrite callInput_turn. simpl. apply lookup_insert_eq. Qed.

(** None of the prompts of the file trips the GBP guard: each is spoken as
    written. *)
Lemma prompts_spoken_verbatim :
  Forall (fun p => Twiml.spoken (sayGather p) = p)
    [GREETING; DIDNT_CATCH; CLARIFY_CATEGORY; ASK_COMMERCIAL_TYPE;
     ASK_DOMESTIC_TYPE; ASK_JOB_TYPE; ASK_PROPERTY; CLARIFY_JOB_TYPE;
     ASK_ROOMS; DEFAULT_PROMPT].
Proof. repeat constructor. Qed.

(** *** [turn], branch by branch *)

Lemma turn_empty (state : Session) :
  turn state "" = (state, sayGather DIDNT_CATCH).
Proof. reflexivity. Qed.

Section NonEmpty.
Variables (state : Session) (speech : string).
Hypothesis Hspeech : speech <> "".

Let pushed := pushTranscript speech state.

Lemma turn_need_category :
  stage state = "need_category" ->
  turn state speech =
    if truthy (categoryOf speech) then
      (setStage "need_service_type"
         (setData "service_category" (categoryOf speech) pushed),
       sayGather (if categoryOf speech =? "commercial"
                  then ASK_COMMERCIAL_TYPE else ASK_DOMESTIC_TYPE))
    else (pushed, sayGather CLARIFY_CATEGORY).
Proof.
  intros Hst. unfold turn. apply truthy_true_iff in Hspeech.
  rewrite Hspeech. cbn [negb]. cbn [pushTranscript stage]. rewrite Hst.
  cbn [String.eqb Ascii.eqb Bool.eqb]. cbv iota.
  destruct (truthy (categoryOf speech)); cbn [negb]; cbv iota; [|reflexivity].
  now destruct (categoryOf speech =? "commercial").
Qed.

Lemma turn_need_service_type :
  stage state = "need_service_type" ->
  turn state speech =
    let raw := setData "service_type_raw" speech pushed in
    if bool_decide (data raw !! "service_category" = Some "commercial") then
      (setStage "need_job_type"
         (setData "domestic_service_type" ""
            (setData "commercial_service_type" speech raw)),
       sayGather ASK_JOB_TYPE)
    else
      (setStage "need_property_and_postcode"
         (setData "commercial_service_type" ""
            (setData "domestic_service_type" speech raw)),
       sayGather ASK_PROPERTY).
Proof.
  intros Hst. unfold turn. apply truthy_true_iff in Hspeech.
  rewrite Hspeech. cbn [negb]. cbn [pushTranscript stage]. rewrite Hst.
  cbn [String.eqb Ascii.eqb Bool.eqb]. cbv iota. reflexivity.
Qed.

Lemma turn_need_job_type :
  stage state = "need_job_type" ->
  turn state speech =
    let assigned := assignJobType speech pushed in
    if truthyField (data assigned !! "job_type") then
      (setStage "need_property_and_postcode" assigned, sayGather ASK_PROPERTY)
    else (assigned, sayGather CLARIFY_JOB_TYPE).
Proof.
  intros Hst. unfold turn. apply truthy_true_iff in Hspeech.
  rewrite Hspeech. cbn [negb]. cbn [pushTranscript stage]. rewrite Hst.
  cbn [String.eqb Ascii.eqb Bool.eqb]. cbv iota. cbv zeta.
  fold pushed.
  now destruct (truthyField (data (assignJobType speech pushed) !! "job_type")).
Qed.

Lemma turn_need_property_and_postcode :
  stage state = "need_property_and_postcode" ->
  turn state speech =
    (setStage "next" (setData "property_and_postcode_raw" speech pushed),
     sayGather ASK_ROOMS).
Proof.
  intros Hst. unfold turn. apply truthy_true_iff in Hspeech.
  rewrite Hspeech. cbn [negb]. cbn [pushTranscript stage]. rewrite Hst.
  cbn [String.eqb Ascii.eqb Bool.eqb]. cbv iota. reflexivity.
Qed.

Lemma turn_default :
  stage state <> "need_category" ->
  stage state <> "need_service_type" ->
  stage state <> "need_job_type" ->
  stage state <> "need_property_and_postcode" ->
  turn state speech = (pushed, sayGather DEFAULT_PROMPT).
Proof.
  intros H1 H2 H3 H4. unfold turn. apply truthy_true_iff in Hspeech.
  rewrite Hspeech. cbn [negb]. cbn [pushTranscript stage].
  apply String.eqb_neq in H1, H2, H3, H4. now rewrite H1, H2, H3, H4.
Qed.

End NonEmpty.

(** The shape of every turn, by the stage the session is in. *)
Variant TurnShape (state : Session) (speech : string) : Prop :=
  | AtEmpty : speech = "" -> TurnShape state speech
  | AtCategory : speech <> "" -> stage state = "need_category" -> TurnShape state speech
  | AtServiceType : speech <> "" -> stage state = "need_service_type" -> TurnShape state speech
  | AtJobType : speech <> "" -> stage state = "need_job_type" -> TurnShape state speech
  | AtProperty :
      speech <> "" -> stage state = "need_property_and_postcode" -> TurnShape state speech
  | AtOther :
      speech <> "" ->
      stage state <> "need_category" -> stage state <> "need_service_type" ->
      stage state <> "need_job_type" -> stage state <> "need_property_and_postcode" ->
      TurnShape state speech.

Lemma turn_shape (state : Session) (speech : string) : TurnShape state speech.
Proof.
  destruct (String.eqb_spec speech ""); [now apply AtEmpty|].
  destruct (String.eqb_spec (stage state) "need_category"); [now apply AtCategory|].
  destruct (String.eqb_spec (stage state) "need_service_type"); [now apply AtServiceType|].
  destruct (String.eqb_spec (stage state) "need_job_type"); [now apply AtJobType|].
  destruct (String.eqb_spec (stage state) "need_property_and_postcode");
    [now apply AtProperty|].
  now apply AtOther.
Qed.

(** [assignJobType] touches no field but [job_type], and neither the stage
    nor the transcript. *)
Lemma assignJobType_stage speech state :
  stage (assignJobType speech state) = stage state.
Proof.
  unfold assignJobType. cbv zeta.
  repeat match goal with |- context [if ?b then _ else _] => destruct b end;
    reflexivity.
Qed.

Lemma assignJobType_transcript speech state :
  transcript (assignJobType speech state) = transcript state.
Proof.
  unfold assignJobType. cbv zeta.
  repeat match goal with |- context [if ?b then _ else _] => destruct b end;
    reflexivity.
Qed.

Lemma assignJobType_other speech state k :
  k <> "job_type" -> data (assignJobType speech state) !! k = data state !! k.
Proof.
  intros Hk. unfold assignJobType. cbv zeta.
  repeat match goal with |- context [if ?b then _ else _] => destruct b end;
    cbn [setData data]; rewrite ?lookup_insert_ne by congruence; reflexivity.
Qed.

Lemma assignJobType_push speech v state :
  assignJobType speech (pushTranscript v state) =
    pushTranscript v (assignJobType speech state).
Proof.
  unfold assignJobType. cbv zeta.
  repeat match goal with |- context [if ?b then _ else _] => destruct b end;
    reflexivity.
Qed.

(** What [job_type] holds after the two assignments: the second one wins. *)
Lemma assignJobType_job_type speech state :
  data (assignJobType speech state) !! "job_type" =
    if regularCue speech then Some "regular"
    else if oneTimeCue speech then Some "one_time"
    else data state !! "job_type".
Proof.
  unfold assignJobType. cbv zeta.
  destruct (regularCue speech), (oneTimeCue speech); cbn [setData data];
    rewrite ?lookup_insert_eq; reflexivity.
Qed.

Lemma assignJobType_no_cue speech state :
  regularCue speech = false -> oneTimeCue speech = false ->
  assignJobType speech state = state.
Proof. intros H1 H2. unfold assignJobType. now rewrite H1, H2. Qed.

(** *** Stage order *)

(** The position of a stage in the forward order of the machine; [start]
    (and any other name) is outside the order. *)
Definition stageRank (s : string) : nat :=
  if s =? "need_category" then 1
  else if s =? "need_service_type" then 2
  else if s =? "need_job_type" then 3
  else if s =? "need_property_and_postcode" then 4
  else if s =? "next" then 5
  else 0.

Lemma turn_stage (state : Session) (speech : string) :
  stage (turn state speech).1 = stage state \/
  stageRank (stage state) < stageRank (stage (turn state speech).1).
Proof.
  destruct (turn_shape state speech) as [->|Hs Hst|Hs Hst|Hs Hst|Hs Hst|Hs H1 H2 H3 H4].
  - left. reflexivity.
  - rewrite turn_need_category by assumption.
    destruct (truthy (categoryOf speech)); cbn [fst setStage stage pushTranscript].
    + right. rewrite Hst. cbv. lia.
    + now left.
  - rewrite turn_need_service_type by assumption. cbv zeta.
    right. rewrite Hst.
    destruct (bool_decide _); cbn [fst setStage stage]; cbv; lia.
  - rewrite turn_need_job_type by assumption. cbv zeta.
    destruct (truthyField _); cbn [fst setStage stage].
    + right. rewrite Hst. cbv. lia.
    + left. now rewrite assignJobType_stage.
  - rewrite turn_need_property_and_postcode by assumption.
    right. cbn [fst setStage stage]. rewrite Hst. cbv. lia.
  - rewrite turn_default by assumption. now left.
Qed.

Lemma turn_transcript (state : Session) (speech : string) :
  transcript (turn state speech).1 =
    if truthy speech then (transcript state ++ [speech])%list else transcript state.
Proof.
  destruct (turn_shape state speech) as [->|Hs Hst|Hs Hst|Hs Hst|Hs Hst|Hs H1 H2 H3 H4];
    [reflexivity| | | | |];
    rewrite (proj2 (truthy_true_iff speech) Hs).
  - rewrite turn_need_category by assumption.
    now destruct (truthy (categoryOf speech)).
  - rewrite turn_need_service_type by assumption. cbv zeta.
    now destruct (bool_decide _).
  - rewrite turn_need_job_type by assumption. cbv zeta.
    destruct (truthyField _); cbn [fst setStage transcript];
      now rewrite assignJobType_transcript.
  - now rewrite turn_need_property_and_postcode by assumption.
  - now rewrite turn_default by assumption.
Qed.

(** A run of input turns, one request after the other. *)
Definition runInputs (callState : CallState) (reqs : list Request) : CallState :=
  fold_left (fun cs req => (callInput cs req).1) reqs callState.

Lemma callInput_stage (callState : CallState) (req : Request) sid :
  stage (sessionOf (callInput callState req).1 sid) = stage (sessionOf callState sid) \/
  stageRank (stage (sessionOf callState sid)) <
    stageRank (stage (sessionOf (callInput callState req).1 sid)).
Proof.
  destruct (decide (CallSid req = sid)) as [<-|Hne].
  - rewrite callInput_session. apply turn_stage.
  - left. now rewrite callInput_other.
Qed.

(** *** One input turn, seen from the session of the calling request *)

(** The session of the request's call before the turn, after it, and the
    text spoken in reply. *)
Definition before (callState : CallState) (req : Request) : Session :=
  sessionOf callState (CallSid req).

Definition after (callState : CallState) (req : Request) : Session :=
  sessionOf (callInput callState req).1 (CallSid req).

Definition reply (callState : CallState) (req : Request) : string :=
  Twiml.spoken (callInput callState req).2.

Lemma after_turn callState req :
  after callState req = (turn (before callState req) (speechOf req)).1.
Proof. apply callInput_session. Qed.

Lemma reply_turn callState req :
  reply callState req = Twiml.spoken (turn (before callState req) (speechOf req)).2.
Proof. unfold reply. now rewrite callInput_turn. Qed.

(** Extraction fails at a stage that extracts from cue phrases when the
    branch of that stage takes its re-prompt exit. *)
Definition extractionFails (state : Session) (speech : string) : bool :=
  if stage state =? "need_category" then negb (truthy (categoryOf speech))
  else if stage state =? "need_job_type" then
    negb (truthyField (data (assignJobType speech state) !! "job_type"))
  else false.

(** The clarifying re-prompt of a stage, for the stages that have one. *)
Definition rePromptOf (stageName : string) : option string :=
  if stageName =? "need_category" then Some CLARIFY_CATEGORY
  else if stageName =? "need_job_type" then Some CLARIFY_JOB_TYPE
  else None.

Lemma job_type_falsy_no_cue speech state :
  truthyField (data (assignJobType speech state) !! "job_type") = false ->
  regularCue speech = false /\ oneTimeCue speech = false.
Proof.
  rewrite assignJobType_job_type.
  destruct (regularCue speech); [discriminate|].
  destruct (oneTimeCue speech); [discriminate|]. now split.
Qed.

Lemma turn_extraction_fails state speech :
  speech <> "" -> extractionFails state speech = true ->
  (turn state speech).1 = pushTranscript speech state /\
  rePromptOf (stage state) = Some (Twiml.spoken (turn state speech).2).
Proof.
  intros Hs. unfold extractionFails, rePromptOf.
  destruct (String.eqb_spec (stage state) "need_category") as [Hst|Hst].
  - rewrite negb_true_iff. intros Hc.
    rewrite turn_need_category by assumption. now rewrite Hc.
  - destruct (String.eqb_spec (stage state) "need_job_type") as [Hj|Hj];
      [|discriminate].
    rewrite negb_true_iff. intros Hc.
    rewrite turn_need_job_type by assumption. cbv zeta.
    rewrite assignJobType_push. cbn [pushTranscript data]. rewrite Hc.
    destruct (job_type_falsy_no_cue _ _ Hc) as [Hr Ho].
    now rewrite assignJobType_no_cue.
Qed.

(** *** Category extraction *)

(** The four words of the direct-answer check. *)
Definition directAnswer (speech : string) : bool :=
  let t := toLowerCase speech in
  includes t "home" || includes t "domestic"
  || includes t "business" || includes t "commercial".

(** Text that matches both hint lists fails extraction unless one of the
    direct-answer words occurs in it. *)
Lemma categoryOf_ambiguous speech :
  someIncluded (toLowerCase speech) domesticHints = true ->
  someIncluded (toLowerCase speech) commercialHints = true ->
  directAnswer speech = false ->
  categoryOf speech = "".
Proof.
  intros Hd Hc. unfold directAnswer. cbv zeta. rewrite !orb_false_iff.
  intros [[[H1 H2] H3] H4].
  unfold categoryOf, detectCategory. cbv zeta. rewrite Hd, Hc. cbn.
  now rewrite H1, H2, H3, H4.
Qed.

End ServerFacts.

Import ServerFacts.

(** ** Histories of requests on [src/server.js] *)

Module ServerRuns.
Import Server.

(** A request to one of the two routes. *)
Variant Event := Start (req : Request) | Input (req : Request).

Definition handle (callState : CallState) (ev : Event) : CallState :=
  match ev with
  | Start req => (callStart callState req).1
  | Input req => (callInput callState req).1
  end.

Definition run (callState : CallState) (evs : list Event) : CallState :=
  fold_left handle evs callState.

(** [ev] is a [/call/start] for the call [sid]. *)
Definition startsCall (sid : option string) (ev : Event) : Prop :=
  match ev with
  | Start req => CallSid req = sid
  | Input _ => False
  end.

Lemma run_app callState evs1 evs2 :
  run callState (evs1 ++ evs2) = run (run callState evs1) evs2.
Proof. apply fold_left_app. Qed.

Lemma handle_other callState ev sid :
  (match ev with Start req | Input req => CallSid req ≠ sid end) ->
  sessionOf (handle callState ev) sid = sessionOf callState sid.
Proof.
  destruct ev as [req|req]; intros H; cbn [handle].
  - unfold callStart. cbn [fst]. now apply sessionOf_insert_ne.
  - now apply callInput_other.
Qed.

(** *** A session created by [getState] *)





(** *** [service_category] is written at need_category only *)

(** A session that holds [service_category] has left need_category. *)
Definition CategorySettled (s : Session) : Prop :=
  is_Some (data s !! "service_category") -> stage s <> "need_category".

Lemma turn_past_category s speech :
  stage s <> "need_category" ->
  data (turn s speech).1 !! "service_category" = data s !! "service_category" /\
  stage (turn s speech).1 <> "need_category".
Proof.
  intros Hst.
  destruct (turn_shape s speech) as [->|Hs E|Hs E|Hs E|Hs E|Hs H1 H2 H3 H4].
  - rewrite turn_empty. now split.
  - contradiction.
  - rewrite turn_need_service_type by assumption. cbv zeta.
    destruct (bool_decide _); cbn [fst setStage setData pushTranscript data stage];
      rewrite !lookup_insert_ne by discriminate; now split.
  - rewrite turn_need_job_type by assumption. cbv zeta.
    destruct (truthyField _); cbn [fst setStage data stage];
      rewrite ?assignJobType_stage, assignJobType_other by discriminate;
      cbn [pushTranscript data stage]; split; congruence.
  - rewrite turn_need_property_and_postcode by assumption.
    cbn [fst setStage setData pushTranscript data stage].
    rewrite lookup_insert_ne by discriminate. now split.
  - rewrite turn_default by assumption. now split.
Qed.

Lemma turn_settled s speech : CategorySettled s -> CategorySettled (turn s speech).1.
Proof.
  intros Hinv. destruct (String.eqb_spec (stage s) "need_category") as [E|Hne].
  - destruct (String.eqb_spec speech "") as [->|Hs]; [now rewrite turn_empty|].
    rewrite turn_need_category by assumption.
    destruct (truthy (categoryOf speech)); cbn [fst]; [intros _; discriminate|].
    exact Hinv.
  - intros _. now apply turn_past_category.
Qed.

Lemma handle_settled callState ev :
  (forall sid, CategorySettled (sessionOf callState sid)) ->
  forall sid, CategorySettled (sessionOf (handle callState ev) sid).
Proof.
  intros Hall sid. destruct ev as [req|req];
    (destruct (decide (CallSid req = sid)) as [<-|Hne];
     [|rewrite handle_other by exact Hne; apply Hall]); cbn [handle].
  - unfold callStart. cbn [fst]. rewrite sessionOf_insert.
    intros [v Hv]. cbn in Hv. now rewrite lookup_empty in Hv.
  - rewrite callInput_session. apply turn_settled, Hall.
Qed.

Lemma run_settled evs : forall callState,
  (forall sid, CategorySettled (sessionOf callState sid)) ->
  forall sid, CategorySettled (sessionOf (run callState evs) sid).
Proof.
  induction evs as [|ev evs IH]; intros callState Hall; [exact Hall|].
  cbn [run fold_left]. apply IH. now apply handle_settled.
Qed.

Lemma empty_settled sid : CategorySettled (sessionOf (∅ : CallState) sid).
Proof.
  rewrite sessionOf_lookup, lookup_empty. intros [v Hv]. cbn in Hv.
  now rewrite lookup_empty in Hv.
Qed.

Lemma run_keeps_category evs : forall callState sid v,
  Forall (fun ev => ~ startsCall sid ev) evs ->
  CategorySettled (sessionOf callState sid) ->
  data (sessionOf callState sid) !! "service_category" = Some v ->
  data (sessionOf (run callState evs) sid) !! "service_category" = Some v.
Proof.
  induction evs as [|ev evs IH]; intros callState sid v Hevs Hinv Hv; [exact Hv|].
  inversion Hevs as [|? ? Hev Hrest]; subst. cbn [run fold_left].
  assert (Hpast : stage (sessionOf callState sid) <> "need_category")
    by (apply Hinv; eauto).
  destruct ev as [req|req];
    (destruct (decide (CallSid req = sid)) as [<-|Hne];
     [|apply IH; rewrite ?handle_other by exact Hne; assumption]).
  - now destruct Hev.
  - destruct (turn_past_category _ (speechOf req) Hpast) as [Hd Hs].
    apply IH; cbn [handle]; rewrite ?callInput_session; [exact Hrest | |congruence].
    intros _. exact Hs.
Qed.

(** *** [job_type] is unset until need_job_type accepts a cue *)

(** The Maps the two handlers can build from the empty Map of a fresh
    process. *)
Definition reachable (callState : CallState) : Prop :=
  exists evs, callState = run ∅ evs.

(** While the intake has not gone past need_job_type, no [job_type] is
    stored. *)
Definition JobTypePending (s : Session) : Prop :=
  stageRank (stage s) <= 3 -> data s !! "job_type" = None.

Lemma turn_pending s speech : JobTypePending s -> JobTypePending (turn s speech).1.
Proof.
  intros Hinv.
  destruct (turn_shape s speech) as [->|Hs E|Hs E|Hs E|Hs E|Hs H1 H2 H3 H4].
  - now rewrite turn_empty.
  - assert (Hn : data s !! "job_type" = None) by (apply Hinv; rewrite E; cbv; lia).
    rewrite turn_need_category by assumption.
    destruct (truthy (categoryOf speech)); intros _;
      cbn [fst setStage setData pushTranscript data];
      rewrite ?lookup_insert_ne by discriminate; exact Hn.
  - assert (Hn : data s !! "job_type" = None) by (apply Hinv; rewrite E; cbv; lia).
    rewrite turn_need_service_type by assumption. cbv zeta.
    destruct (bool_decide _); intros _;
      cbn [fst setStage setData pushTranscript data];
      rewrite !lookup_insert_ne by discriminate; exact Hn.
  - assert (Hn : data s !! "job_type" = None) by (apply Hinv; rewrite E; cbv; lia).
    rewrite turn_need_job_type by assumption. cbv zeta.
    destruct (truthyField _) eqn:Hf; cbn [fst].
    + intros H. cbv in H. lia.
    + destruct (job_type_falsy_no_cue _ _ Hf) as [Hr Ho].
      rewrite assignJobType_no_cue by assumption. intros _. exact Hn.
  - rewrite turn_need_property_and_postcode by assumption.
    intros H. cbv in H. lia.
  - rewrite turn_default by assumption. exact Hinv.
Qed.

Lemma handle_pending callState ev :
  (forall sid, JobTypePending (sessionOf callState sid)) ->
  forall sid, JobTypePending (sessionOf (handle callState ev) sid).
Proof.
  intros Hall sid. destruct ev as [req|req];
    (destruct (decide (CallSid req = sid)) as [<-|Hne];
     [|rewrite handle_other by exact Hne; apply Hall]); cbn [handle].
  - unfold callStart. cbn [fst]. rewrite sessionOf_insert.
    intros _. apply lookup_empty.
  - rewrite callInput_session. apply turn_pending, Hall.
Qed.

Lemma reachable_pending callState sid :
  reachable callState -> JobTypePending (sessionOf callState sid).
Proof.
  intros [evs ->]. revert sid.
  assert (H0 : forall sid, JobTypePending (sessionOf (∅ : CallState) sid)).
  { intros sid _. rewrite sessionOf_lookup, lookup_empty. apply lookup_empty. }
  revert H0. generalize (∅ : CallState).
  induction evs as [|ev evs IH]; intros cs Hall; [exact Hall|].
  cbn [run fold_left]. apply IH. now apply handle_pending.
Qed.

End ServerRuns.

(** ** Histories of requests on [src/unnamed/part_000] *)

Module DraftRuns.
Import Draft.

(** The session the input handler works on for [callSid]. *)
Definition sessionOf (callState : CallState) (callSid : string) : Session :=
  default freshSession (callState !! callSid).

(** A request to one of the two routes, with the clock reading it is
    served at. *)
Variant Event := Start (req : Request) (now : N) | Input (req : Request) (now : N).

Definition handle (callState : CallState) (ev : Event) : CallState :=
  match ev with
  | Start req now => (callStart callState req now).1
  | Input req now => (callInput callState req now).1
  end.

Definition run (callState : CallState) (evs : list Event) : CallState :=
  fold_left handle evs callState.

(** [ev] is a [/call/start] that resolves to the call [sid]. *)
Definition startsCall (sid : string) (ev : Event) : Prop :=
  match ev with
  | Start req now => callSidOf req now = sid
  | Input _ _ => False
  end.

Lemma draft_run_app callState evs1 evs2 :
  run callState (evs1 ++ evs2) = run (run callState evs1) evs2.
Proof. apply fold_left_app. Qed.

Lemma draft_callInput_session callState req now :
  sessionOf (callInput callState req now).1 (callSidOf req now) =
    (turn (sessionOf callState (callSidOf req now)) (speechOf req)).1.
Proof.
  unfold callInput, sessionOf.
  destruct (turn _ _) as [s r]. cbn [fst]. now rewrite lookup_insert_eq.
Qed.

Lemma draft_handle_other callState ev sid :
  (match ev with Start req now | Input req now => callSidOf req now ≠ sid end) ->
  sessionOf (handle callState ev) sid = sessionOf callState sid.
Proof.
  destruct ev as [req now|req now]; intros H; cbn [handle]; unfold sessionOf.
  - unfold callStart. cbn [fst]. now rewrite lookup_insert_ne.
  - unfold callInput. destruct (turn _ _) as [s r]. cbn [fst].
    now rewrite lookup_insert_ne.
Qed.

(** The session that a turn leaves behind. *)
Lemma turn_session s speech :
  (turn s speech).1 =
    if truthy speech then assignCategory speech (pushTranscript speech s) else s.
Proof.
  unfold turn. destruct (truthy speech); cbn [negb]; [|reflexivity].
  repeat match goal with |- context [if ?b then _ else _] => destruct b end;
    reflexivity.
Qed.

(** A stored [service_category] is a non-empty string. *)
Definition CategoryTruthy (s : Session) : Prop :=
  forall v, data s !! "service_category" = Some v -> v <> "".

Lemma assignCategory_guarded speech s v :
  data s !! "service_category" = Some v -> v <> "" ->
  assignCategory speech s = s.
Proof.
  intros Hv Hne. unfold assignCategory. cbv zeta. rewrite Hv. cbn [truthyField].
  now rewrite (proj2 (truthy_true_iff v) Hne).
Qed.

Lemma assignCategory_truthy speech s :
  CategoryTruthy s -> CategoryTruthy (assignCategory speech s).
Proof.
  intros Hinv. unfold assignCategory. cbv zeta.
  destruct (negb _); [|exact Hinv].
  destruct (someIncluded _ domesticHints), (someIncluded _ commercialHints);
    cbn [andb negb]; try exact Hinv;
    intros v; cbn [setData data]; rewrite lookup_insert_eq;
    intros [= <-]; discriminate.
Qed.

Lemma turn_truthy s speech : CategoryTruthy s -> CategoryTruthy (turn s speech).1.
Proof.
  intros Hinv. rewrite turn_session. destruct (truthy speech); [|exact Hinv].
  now apply assignCategory_truthy.
Qed.

Lemma turn_keeps_category s speech v :
  CategoryTruthy s ->
  data s !! "service_category" = Some v ->
  data (turn s speech).1 !! "service_category" = Some v.
Proof.
  intros Hinv Hv. rewrite turn_session. destruct (truthy speech); [|exact Hv].
  rewrite (assignCategory_guarded speech (pushTranscript speech s) v);
    [exact Hv | exact Hv | now apply Hinv].
Qed.

Lemma fresh_truthy : CategoryTruthy freshSession.
Proof. intros v Hv. cbn in Hv. now rewrite lookup_empty in Hv. Qed.

Lemma handle_truthy callState ev :
  (forall sid, CategoryTruthy (sessionOf callState sid)) ->
  forall sid, CategoryTruthy (sessionOf (handle callState ev) sid).
Proof.
  intros Hall sid. destruct ev as [req now|req now];
    (destruct (decide (callSidOf req now = sid)) as [<-|Hne];
     [|rewrite draft_handle_other by exact Hne; apply Hall]); cbn [handle].
  - unfold callStart, sessionOf. cbn [fst]. rewrite lookup_insert_eq.
    exact fresh_truthy.
  - rewrite draft_callInput_session. apply turn_truthy, Hall.
Qed.

Lemma run_truthy evs : forall callState,
  (forall sid, CategoryTruthy (sessionOf callState sid)) ->
  forall sid, CategoryTruthy (sessionOf (run callState evs) sid).
Proof.
  induction evs as [|ev evs IH]; intros callState Hall; [exact Hall|].
  cbn [run fold_left]. apply IH. now apply handle_truthy.
Qed.

Lemma empty_truthy sid : CategoryTruthy (sessionOf (∅ : CallState) sid).
Proof. unfold sessionOf. rewrite lookup_empty. exact fresh_truthy. Qed.

Lemma draft_run_keeps_category evs : forall callState sid v,
  Forall (fun ev => ~ startsCall sid ev) evs ->
  CategoryTruthy (sessionOf callState sid) ->
  data (sessionOf callState sid) !! "service_category" = Some v ->
  data (sessionOf (run callState evs) sid) !! "service_category" = Some v.
Proof.
  induction evs as [|ev evs IH]; intros callState sid v Hevs Hinv Hv; [exact Hv|].
  inversion Hevs as [|? ? Hev Hrest]; subst. cbn [run fold_left].
  destruct ev as [req now|req now];
    (destruct (decide (callSidOf req now = sid)) as [<-|Hne];
     [|apply IH; rewrite ?draft_handle_other by exact Hne; assumption]).
  - now destruct Hev.
  - apply IH; cbn [handle]; rewrite ?draft_callInput_session; [exact Hrest | |].
    + now apply turn_truthy.
    + now apply turn_keeps_category.
Qed.

End DraftRuns.

(** ** More on the string operations *)

Module JsStringMore.

Lemma append_assoc (a b c : string) : (a +:+ b) +:+ c = a +:+ (b +:+ c).
Proof.
  induction a as [|x a IH]; [reflexivity|].
  rewrite !append_cons. now rewrite IH.
Qed.

Lemma spaceSequences_nonempty :
  Forall (fun q => String.length q <> 0) Unicode.spaceSequences.
Proof. repeat constructor; discriminate. Qed.

(** [spaceLead] is 0 exactly when no white space sequence begins the text. *)
Lemma spaceLead_zero_iff (s : string) :
  spaceLead s = 0 <->
  forall q, In q Unicode.spaceSequences -> String.prefix q s = false.
Proof.
  unfold spaceLead. split.
  - destruct (List.find _ _) as [q|] eqn:E.
    + intros H. apply List.find_some in E as [Hin _].
      pose proof (proj1 (List.Forall_forall _ _) spaceSequences_nonempty q Hin).
      contradiction.
    + intros _ q Hq. exact (List.find_none _ _ E q Hq).
  - intros H. destruct (List.find _ _) as [q|] eqn:E; [|reflexivity].
    apply List.find_some in E as [Hin Hp]. rewrite (H q Hin) in Hp. discriminate Hp.
Qed.

Lemma trimStartFrom_no_lead (s : string) : forall skip,
  spaceLead (trimStartFrom skip s) = 0.
Proof.
  induction s as [|c s IH]; intros skip; [reflexivity|].
  cbn [trimStartFrom]. destruct skip as [|k]; [|apply IH].
  destruct (spaceLead (String c s)) eqn:E; [exact E | apply IH].
Qed.

Lemma trimStart_fixed (s : string) : spaceLead s = 0 -> trimStart s = s.
Proof.
  intros H. destruct s as [|c s]; [reflexivity|].
  unfold trimStart. cbn [trimStartFrom]. now rewrite H.
Qed.

(** What [trimEnd] keeps is a beginning of the text. *)
Lemma trimEnd_prefix (s : string) : exists w, s = trimEnd s +:+ w.
Proof.
  induction s as [|c s [w IH]]; [now exists ""|].
  cbn [trimEnd]. cbv zeta. destruct (isSpaceSequence _).
  - now exists (String c s).
  - exists w. rewrite append_cons. now rewrite <- IH.
Qed.

Lemma trimEnd_no_lead (s : string) : spaceLead s = 0 -> spaceLead (trimEnd s) = 0.
Proof.
  rewrite !spaceLead_zero_iff. intros H q Hq.
  destruct (String.prefix q (trimEnd s)) eqn:E; [|reflexivity].
  apply prefix_true_iff in E as [post E]. destruct (trimEnd_prefix s) as [w Hw].
  rewrite <- (H q Hq). symmetry. apply prefix_true_iff.
  exists (post +:+ w). rewrite Hw at 1. rewrite E. apply append_assoc.
Qed.

Lemma trimEnd_idempotent (s : string) : trimEnd (trimEnd s) = trimEnd s.
Proof.
  induction s as [|c s IH]; [reflexivity|].
  cbn [trimEnd]. cbv zeta.
  destruct (isSpaceSequence (String c (trimEnd s))) eqn:E; [reflexivity|].
  cbn [trimEnd]. cbv zeta. now rewrite IH, E.
Qed.

Lemma trim_idempotent (s : string) : trim (trim s) = trim s.
Proof.
  unfold trim.
  rewrite (trimStart_fixed (trimEnd (trimStart s))).
  - apply trimEnd_idempotent.
  - apply trimEnd_no_lead. apply trimStartFrom_no_lead.
Qed.

End JsStringMore.

(** ** Lower-cased text holds no capital letter A to Z *)

Module LowerCaseFacts.
Import Unicode.

Local Open Scope N_scope.

Definition isAsciiCapital (a : ascii) : bool :=
  (65 <=? byteOf a) && (byteOf a <=? 90).

(** Some byte of the text is one of the letters A to Z. *)
Fixpoint hasAsciiCapital (s : string) : bool :=
  match s with
  | EmptyString => false
  | String a s' => isAsciiCapital a || hasAsciiCapital s'
  end.

Lemma hasAsciiCapital_append (a b : string) :
  hasAsciiCapital (a +:+ b) = hasAsciiCapital a || hasAsciiCapital b.
Proof.
  induction a as [|x a IH]; [reflexivity|].
  rewrite append_cons. cbn [hasAsciiCapital]. now rewrite IH, orb_assoc.
Qed.

Lemma byteOf_bound (a : ascii) : byteOf a < 256.
Proof. apply N_ascii_bounded. Qed.

Lemma byteOf_ofByte (n : N) : n < 256 -> byteOf (ofByte n) = n.
Proof. apply N_ascii_embedding. Qed.

Lemma capital_ofByte (n : N) :
  n < 256 -> n < 65 \/ 90 < n -> isAsciiCapital (ofByte n) = false.
Proof.
  intros Hn Hr. unfold isAsciiCapital. rewrite byteOf_ofByte by exact Hn.
  apply andb_false_iff. rewrite N.leb_gt, N.leb_gt. lia.
Qed.

(** What [decode] yields: a code point, or a carried byte above 0x7F. *)
Definition decodable (c : N) : Prop :=
  c < 0x110000 \/ (0x110080 <= c /\ c <= 0x1100FF).

Ltac props :=
  repeat match goal with
    | H : (_ && _) = true |- _ => apply andb_true_iff in H; destruct H
    | H : (_ <=? _) = true |- _ => apply N.leb_le in H
    | H : (_ <? _) = true |- _ => apply N.ltb_lt in H
    | H : (_ <? _) = false |- _ => apply N.ltb_ge in H
    | H : isContinuation _ = true |- _ => unfold isContinuation in H
    end.

Lemma decode_decodable (s : string) : Forall decodable (decode s).
Proof.
  assert (H : forall n s, (String.length s <= n)%nat -> Forall decodable (decode s)).
  { clear s. induction n as [|n IH]; intros s Hlen.
    - destruct s; [constructor | cbn in Hlen; lia].
    - destruct s as [|a0 s1]; [constructor|].
      pose proof (byteOf_bound a0) as B0.
      assert (T1 : Forall decodable (decode s1)) by (apply IH; cbn in Hlen; lia).
      cbn [decode]. cbv zeta.
      destruct (byteOf a0 <? 0x80) eqn:E0; props.
      { constructor; [left; lia | exact T1]. }
      assert (Hraw : decodable (rawByte (byteOf a0))) by (right; unfold rawByte; lia).
      destruct s1 as [|a1 s2]; [constructor; [exact Hraw | constructor]|].
      pose proof (byteOf_bound a1) as B1.
      assert (T2 : Forall decodable (decode s2))
        by (apply IH; cbn in Hlen |- *; lia).
      destruct ((0xC2 <=? byteOf a0) && (byteOf a0 <=? 0xDF)
                && isContinuation (byteOf a1)) eqn:E1; props.
      { constructor; [left; lia | exact T2]. }
      destruct s2 as [|a2 s3]; [constructor; [exact Hraw | exact T1]|].
      pose proof (byteOf_bound a2) as B2.
      assert (T3 : Forall decodable (decode s3))
        by (apply IH; cbn in Hlen |- *; lia).
      match goal with |- context [if ?b then _ else _] => destruct b eqn:E2 end; props.
      { constructor; [left; lia | exact T3]. }
      destruct s3 as [|a3 s4]; [constructor; [exact Hraw | exact T1]|].
      assert (T4 : Forall decodable (decode s4))
        by (apply IH; cbn in Hlen |- *; lia).
      match goal with |- context [if ?b then _ else _] => destruct b eqn:E3 end; props.
      { constructor; [left; lia | exact T4]. }
      constructor; [exact Hraw | exact T1]. }
  exact (H _ s (le_n _)).
Qed.

(** The bytes of a code point hold no capital letter. *)
Definition fine (c : N) : Prop := hasAsciiCapital (encodeOne c) = false.

Lemma capital_high_byte (base q : N) :
  90 < base -> base + q < 256 -> isAsciiCapital (ofByte (base + q)) = false.
Proof. intros Hb Hq. apply capital_ofByte; lia. Qed.

Lemma decodable_fine (c : N) : decodable c -> c < 65 \/ 90 < c -> fine c.
Proof.
  intros Hd Hc. unfold fine, encodeOne.
  pose proof (N.mod_upper_bound c 64 ltac:(lia)).
  pose proof (N.mod_upper_bound (c / 64) 64 ltac:(lia)).
  pose proof (N.mod_upper_bound (c / 4096) 64 ltac:(lia)).
  destruct (c <? 0x80) eqn:E0; props.
  { cbn [hasAsciiCapital]. rewrite capital_ofByte by lia. reflexivity. }
  destruct (c <? 0x800) eqn:E1; props.
  { pose proof (N.Div0.div_lt_upper_bound c 64 32 ltac:(lia)).
    cbn [hasAsciiCapital]. rewrite !capital_high_byte by lia. reflexivity. }
  destruct (c <? 0x10000) eqn:E2; props.
  { pose proof (N.Div0.div_lt_upper_bound c 4096 16 ltac:(lia)).
    cbn [hasAsciiCapital]. rewrite !capital_high_byte by lia. reflexivity. }
  destruct (c <? 0x110000) eqn:E3; props.
  { pose proof (N.Div0.div_lt_upper_bound c 262144 5 ltac:(lia)).
    cbn [hasAsciiCapital]. rewrite !capital_high_byte by lia. reflexivity. }
  destruct Hd as [Hd|Hd]; [lia|].
  cbn [hasAsciiCapital]. rewrite capital_ofByte by lia. reflexivity.
Qed.

(** Every run of the table has its images above the letter Z and among the
    code points. *)
Definition runImagesFine (run : N * N * N * N) : bool :=
  let '(lo, hi, _, image) := run in (90 <? image) && (image + (hi - lo) <? 0x110000).

Lemma lowerRuns_fine : forallb runImagesFine lowerRuns = true.
Proof. vm_compute. reflexivity. Qed.

Lemma lookupRun_image (runs : list (N * N * N * N)) (c l : N) :
  forallb runImagesFine runs = true ->
  lookupRun runs c = Some l -> 90 < l /\ l < 0x110000.
Proof.
  induction runs as [|[[[lo hi] step] image] runs IH]; [discriminate|].
  cbn [forallb lookupRun runImagesFine]. intros Hall.
  apply andb_true_iff in Hall as [Hrun Hall].
  destruct (c <? lo) eqn:E0; [discriminate|].
  destruct ((c <=? hi) && ((c - lo) mod step =? 0)) eqn:E1; [|now apply IH].
  intros [= <-]. props. lia.
Qed.

Lemma lookupRun_capital (c : N) :
  65 <= c <= 90 -> lookupRun lowerRuns c <> None.
Proof.
  intros Hc. unfold lowerRuns. cbn [lookupRun].
  replace (c <? 0x41) with false by (symmetry; apply N.ltb_ge; lia).
  replace (c <=? 0x5A) with true by (symmetry; apply N.leb_le; lia).
  rewrite N.mod_1_r. cbn [andb N.eqb]. discriminate.
Qed.

Lemma lowerCodePoint_fine (c : N) :
  decodable c -> Forall fine (lowerCodePoint c).
Proof.
  intros Hd. unfold lowerCodePoint.
  destruct (c =? 0x130); [repeat constructor|].
  destruct (lookupRun lowerRuns c) as [l|] eqn:E.
  - destruct (lookupRun_image _ _ _ lowerRuns_fine E).
    constructor; [|constructor]. apply decodable_fine; [left|]; lia.
  - constructor; [|constructor]. apply decodable_fine; [exact Hd|].
    destruct (N.lt_ge_cases c 65); [now left|].
    destruct (N.lt_ge_cases 90 c); [now right|].
    exfalso. apply (lookupRun_capital c); [lia | exact E].
Qed.

Lemma lowerFrom_fine (rest : list N) : forall before,
  Forall decodable rest -> Forall fine (lowerFrom before rest).
Proof.
  induction rest as [|c rest IH]; intros before Hd; [constructor|].
  inversion Hd as [|? ? Hc Hrest]; subst. cbn [lowerFrom].
  apply Forall_app. split; [|now apply IH].
  destruct (c =? 0x3A3); [|now apply lowerCodePoint_fine].
  destruct (finalSigma before rest); repeat constructor.
Qed.

Lemma encode_fine (l : list N) : Forall fine l -> hasAsciiCapital (encode l) = false.
Proof.
  induction 1 as [|c l Hc _ IH]; [reflexivity|].
  cbn [encode]. rewrite hasAsciiCapital_append, IH. unfold fine in Hc. now rewrite Hc.
Qed.

(** [toLowerCase] leaves no letter A to Z in the text. *)
Lemma toLowerCase_no_capital (s : string) :
  hasAsciiCapital (toLowerCase s) = false.
Proof.
  unfold toLowerCase. apply encode_fine, lowerFrom_fine, decode_decodable.
Qed.

(** A phrase found in lower-cased text holds no letter A to Z. *)
Lemma includes_lower_no_capital (text x : string) :
  includes (toLowerCase text) x = true -> hasAsciiCapital x = false.
Proof.
  intros H. apply includes_true_iff in H as (pre & post & H).
  pose proof (toLowerCase_no_capital text) as Hc.
  rewrite H, !hasAsciiCapital_append in Hc.
  apply orb_false_iff in Hc as [_ Hc]. now apply orb_false_iff in Hc as [Hc _].
Qed.

End LowerCaseFacts.

(** ** What a session of [src/server.js] holds at each stage *)

Module ServerIntake.
Import Server ServerRuns.

(** The fields after the need_service_type branch, by category, for the
    answer [v]: the writes of the branch in their order. *)
Definition commercialData (v : string) : gmap string string :=
  <["domestic_service_type" := ""]>
    (<["commercial_service_type" := v]>
       (<["service_type_raw" := v]> (<["service_category" := "commercial"]> ∅))).

Definition domesticData (v : string) : gmap string string :=
  <["commercial_service_type" := ""]>
    (<["domestic_service_type" := v]>
       (<["service_type_raw" := v]> (<["service_category" := "domestic"]> ∅))).

(** [Intake tr st d]: a session at stage [st] with transcript [tr] holds
    exactly the fields [d]. *)
Inductive Intake (tr : list string) : string -> gmap string string -> Prop :=
  | intake_start : Intake tr "start" ∅
  | intake_category : Intake tr "need_category" ∅
  | intake_service_type c :
      c = "domestic" \/ c = "commercial" ->
      Intake tr "need_service_type" (<["service_category" := c]> ∅)
  | intake_job_type v :
      In v tr -> Intake tr "need_job_type" (commercialData v)
  | intake_property_domestic v :
      In v tr -> Intake tr "need_property_and_postcode" (domesticData v)
  | intake_property_commercial v j :
      In v tr -> j = "one_time" \/ j = "regular" ->
      Intake tr "need_property_and_postcode" (<["job_type" := j]> (commercialData v))
  | intake_next_domestic v w :
      In v tr -> In w tr ->
      Intake tr "next" (<["property_and_postcode_raw" := w]> (domesticData v))
  | intake_next_commercial v w j :
      In v tr -> In w tr -> j = "one_time" \/ j = "regular" ->
      Intake tr "next"
        (<["property_and_postcode_raw" := w]>
           (<["job_type" := j]> (commercialData v))).

Definition WellFormed (s : Session) : Prop :=
  Intake (transcript s) (stage s) (data s).

Lemma intake_longer tr x st d : Intake tr st d -> Intake (tr ++ [x]) st d.
Proof.
  assert (Hin : forall v, In v tr -> In v (tr ++ [x]))
    by (intros v Hv; apply in_or_app; now left).
  intros H. destruct H; econstructor; eauto.
Qed.

Lemma categoryOf_values speech :
  categoryOf speech = "" \/ categoryOf speech = "domestic" \/
  categoryOf speech = "commercial".
Proof.
  unfold categoryOf, detectCategory. cbv zeta.
  destruct (someIncluded _ domesticHints), (someIncluded _ commercialHints);
    cbn [andb negb truthy String.eqb Ascii.eqb Bool.eqb];
    repeat match goal with |- context [if ?b then _ else _] => destruct b end;
    auto.
Qed.

Lemma turn_wellformed s speech : WellFormed s -> WellFormed (turn s speech).1.
Proof.
  unfold WellFormed. destruct s as [tr st d]. intros H.
  cbn [transcript stage data] in H.
  assert (Hin : In speech (tr ++ [speech])) by (apply in_or_app; right; now left).
  assert (Hold : forall v, In v tr -> In v (tr ++ [speech]))
    by (intros v Hv; apply in_or_app; now left).
  destruct (turn_shape {| transcript := tr; stage := st; data := d |} speech)
    as [->|Hs E|Hs E|Hs E|Hs E|Hs H1 H2 H3 H4]; cbn [stage] in *.
  - now rewrite turn_empty.
  - rewrite turn_need_category by assumption. subst st. inversion H; subst.
    destruct (truthy (categoryOf speech)) eqn:Ht;
      cbn [fst setStage setData pushTranscript transcript stage data].
    + apply intake_service_type. apply truthy_true_iff in Ht.
      destruct (categoryOf_values speech) as [?|?]; [contradiction | assumption].
    + apply intake_category.
  - rewrite turn_need_service_type by assumption. cbv zeta.
    subst st. inversion H as [| | c Hc | | | | |]; subst.
    cbn [setData pushTranscript data].
    rewrite lookup_insert_ne, lookup_insert_eq by discriminate.
    destruct Hc as [-> | ->].
    + rewrite bool_decide_eq_false_2 by discriminate.
      cbn [fst setStage setData transcript stage data].
      now apply intake_property_domestic.
    + rewrite bool_decide_eq_true_2 by reflexivity.
      cbn [fst setStage setData transcript stage data].
      now apply intake_job_type.
  - rewrite turn_need_job_type by assumption. cbv zeta.
    subst st. inversion H as [| | | v Hv | | | |]; subst.
    rewrite assignJobType_job_type. cbn [pushTranscript data].
    unfold assignJobType. cbv zeta.
    destruct (regularCue speech), (oneTimeCue speech);
      cbn [truthyField truthy String.eqb Ascii.eqb Bool.eqb negb fst
           setStage setData transcript stage data];
      rewrite ?insert_insert_eq.
    + apply intake_property_commercial; auto.
    + apply intake_property_commercial; auto.
    + apply intake_property_commercial; auto.
    + replace (truthyField (commercialData v !! "job_type")) with false
        by reflexivity.
      cbn [fst transcript stage data]. apply intake_job_type; auto.
  - rewrite turn_need_property_and_postcode by assumption.
    cbn [fst setStage setData pushTranscript transcript stage data].
    subst st. inversion H as [| | | | v Hv | v j Hv Hj | |]; subst.
    + apply intake_next_domestic; auto.
    + apply intake_next_commercial; auto.
  - rewrite turn_default by assumption.
    cbn [fst pushTranscript transcript stage data]. now apply intake_longer.
Qed.

Lemma handle_wellformed callState ev :
  (forall sid, WellFormed (sessionOf callState sid)) ->
  forall sid, WellFormed (sessionOf (handle callState ev) sid).
Proof.
  intros Hall sid. destruct ev as [req|req];
    (destruct (decide (CallSid req = sid)) as [<-|Hne];
     [|rewrite handle_other by exact Hne; apply Hall]); cbn [handle].
  - unfold callStart. cbn [fst]. rewrite sessionOf_insert. apply intake_category.
  - rewrite callInput_session. apply turn_wellformed, Hall.
Qed.

(** Every session of a Map that the handlers built from the empty Map has
    the fields of its stage, and no other. *)
Lemma reachable_wellformed callState sid :
  reachable callState -> WellFormed (sessionOf callState sid).
Proof.
  intros [evs ->]. revert sid.
  assert (H0 : forall sid, WellFormed (sessionOf (∅ : CallState) sid)).
  { intros sid. rewrite sessionOf_lookup, lookup_empty. apply intake_start. }
  revert H0. generalize (∅ : CallState).
  induction evs as [|ev evs IH]; intros cs Hall; [exact Hall|].
  cbn [run fold_left]. apply IH. now apply handle_wellformed.
Qed.

End ServerIntake.

(** ** Sessions of [src/server.js] as replays of their own requests *)

Module ServerHistory.
Import Server ServerRuns.

(** The call a request is addressed to. *)
Definition eventSid (ev : Event) : option string :=
  match ev with Start req | Input req => CallSid req end.

Definition addressed (sid : option string) (ev : Event) : bool :=
  bool_decide (eventSid ev = sid).

(** The session [/call/start] stores. *)
Definition startedSession : Session :=
  {| transcript := []; stage := "need_category"; data := ∅ |}.

(** One request, seen from the session of its own call. *)
Definition replayOne (s : Session) (ev : Event) : Session :=
  match ev with
  | Start _ => startedSession
  | Input req => (turn s (speechOf req)).1
  end.

Definition replay (s : Session) (evs : list Event) : Session :=
  fold_left replayOne evs s.

Lemma handle_addressed callState ev sid :
  eventSid ev = sid ->
  sessionOf (handle callState ev) sid = replayOne (sessionOf callState sid) ev.
Proof.
  intros <-. destruct ev as [req|req]; cbn [handle eventSid replayOne].
  - unfold callStart. cbn [fst]. apply sessionOf_insert.
  - apply callInput_session.
Qed.

Lemma run_replay evs : forall callState sid,
  sessionOf (run callState evs) sid =
    replay (sessionOf callState sid) (List.filter (addressed sid) evs).
Proof.
  induction evs as [|ev evs IH]; intros callState sid; [reflexivity|].
  cbn [run fold_left List.filter]. fold (run (handle callState ev) evs).
  rewrite IH. unfold addressed at 2. case_bool_decide as Hev.
  - cbn [replay fold_left]. now rewrite handle_addressed.
  - rewrite handle_other; [reflexivity|]. now destruct ev.
Qed.

(** The trimmed, non-empty texts that [reqs] deliver to the call [sid]. *)
Definition heard (sid : option string) (reqs : list Request) : list string :=
  List.filter truthy
    (map speechOf (List.filter (fun req => bool_decide (CallSid req = sid)) reqs)).

Lemma runInputs_transcript reqs : forall callState sid,
  transcript (sessionOf (runInputs callState reqs) sid) =
    (transcript (sessionOf callState sid) ++ heard sid reqs)%list.
Proof.
  induction reqs as [|req reqs IH]; intros callState sid.
  - cbn. now rewrite app_nil_r.
  - cbn [runInputs fold_left]. fold (runInputs (callInput callState req).1 reqs).
    rewrite IH. unfold heard. cbn [List.filter]. case_bool_decide as Hsid.
    + subst sid. rewrite callInput_session, turn_transcript. cbn [map List.filter].
      destruct (truthy (speechOf req)); [|reflexivity].
      now rewrite <- app_assoc.
    + now rewrite callInput_other.
Qed.

(** Every entry is non-empty and carries no white space at its ends. *)
Definition Trimmed (tr : list string) : Prop :=
  Forall (fun e => e <> "" /\ trim e = e) tr.

Lemma handle_trimmed callState ev :
  (forall sid, Trimmed (transcript (sessionOf callState sid))) ->
  forall sid, Trimmed (transcript (sessionOf (handle callState ev) sid)).
Proof.
  intros Hall sid. destruct (decide (eventSid ev = sid)) as [Hev|Hne].
  - rewrite handle_addressed by exact Hev. destruct ev as [req|req]; cbn [replayOne].
    + constructor.
    + rewrite turn_transcript. destruct (truthy (speechOf req)) eqn:Ht; [|apply Hall].
      apply Forall_app. split; [apply Hall|]. constructor; [|constructor].
      split; [now apply truthy_true_iff|]. apply JsStringMore.trim_idempotent.
  - rewrite handle_other; [apply Hall|]. now destruct ev.
Qed.

Lemma reachable_trimmed callState sid :
  reachable callState -> Trimmed (transcript (sessionOf callState sid)).
Proof.
  intros [evs ->]. revert sid.
  assert (H0 : forall sid, Trimmed (transcript (sessionOf (∅ : CallState) sid))).
  { intros sid. rewrite sessionOf_lookup, lookup_empty. constructor. }
  revert H0. generalize (∅ : CallState).
  induction evs as [|ev evs IH]; intros cs Hall; [exact Hall|].
  cbn [run fold_left]. apply IH. now apply handle_trimmed.
Qed.

(** The keys of the Map after one request. *)
Lemma handle_dom callState ev :
  dom (handle callState ev) = {[eventSid ev]} ∪ dom callState.
Proof.
  destruct ev as [req|req]; cbn [handle eventSid].
  - unfold callStart. cbn [fst]. apply dom_insert_L.
  - rewrite callInput_turn. cbn [fst]. rewrite dom_insert_L.
    unfold getState. destruct (callState !! CallSid req); cbn [fst]; [reflexivity|].
    rewrite dom_insert_L. now rewrite (assoc_L (∪)), (idemp_L (∪)).
Qed.

(** The prompts the input handler can speak. *)
Definition inputPrompts : list string :=
  [DIDNT_CATCH; CLARIFY_CATEGORY; ASK_COMMERCIAL_TYPE; ASK_DOMESTIC_TYPE;
   ASK_JOB_TYPE; ASK_PROPERTY; CLARIFY_JOB_TYPE; ASK_ROOMS; DEFAULT_PROMPT].

Lemma sayGather_prompt p :
  In p (GREETING :: inputPrompts) -> sayGather p = gatherDocument p.
Proof.
  unfold inputPrompts. cbn [In].
  intros H. repeat (destruct H as [H|H]; [subst p; reflexivity|]). destruct H.
Qed.

Lemma turn_prompt s speech :
  exists p, In p inputPrompts /\ (turn s speech).2 = gatherDocument p.
Proof.
  assert (Hp : forall p, In p inputPrompts ->
             exists q, In q inputPrompts /\ sayGather p = gatherDocument q).
  { intros p Hp. exists p. split; [exact Hp|]. apply sayGather_prompt. now right. }
  destruct (turn_shape s speech) as [->|Hs E|Hs E|Hs E|Hs E|Hs H1 H2 H3 H4].
  - rewrite turn_empty. apply Hp. cbn. tauto.
  - rewrite turn_need_category by assumption.
    destruct (truthy (categoryOf speech)); cbn [snd]; [|apply Hp; cbn; tauto].
    destruct (categoryOf speech =? "commercial"); apply Hp; cbn; tauto.
  - rewrite turn_need_service_type by assumption. cbv zeta.
    destruct (bool_decide _); cbn [snd]; apply Hp; cbn; tauto.
  - rewrite turn_need_job_type by assumption. cbv zeta.
    destruct (truthyField _); cbn [snd]; apply Hp; cbn; tauto.
  - rewrite turn_need_property_and_postcode by assumption. apply Hp; cbn; tauto.
  - rewrite turn_default by assumption. apply Hp; cbn; tauto.
Qed.

(** A session at [next] stays as it is, but for its transcript. *)
Lemma turn_next s speech :
  stage s = "next" ->
  stage (turn s speech).1 = "next" /\ data (turn s speech).1 = data s /\
  (speech <> "" -> Twiml.spoken (turn s speech).2 = DEFAULT_PROMPT).
Proof.
  intros Hst.
  destruct (turn_shape s speech) as [->|Hs E|Hs E|Hs E|Hs E|Hs H1 H2 H3 H4];
    try (rewrite Hst in E; discriminate E).
  - rewrite turn_empty. now repeat split.
  - rewrite turn_default by assumption. now repeat split.
Qed.

End ServerHistory.

(** ** Sessions of [src/unnamed/part_000] *)

Module DraftIntake.
Import Draft DraftRuns.

(** One input turn, seen from the session the request resolves to. *)
Definition before (callState : CallState) (req : Request) (now : N) : Session :=
  sessionOf callState (callSidOf req now).

Definition after (callState : CallState) (req : Request) (now : N) : Session :=
  sessionOf (callInput callState req now).1 (callSidOf req now).

Definition reply (callState : CallState) (req : Request) (now : N) : string :=
  Twiml.spoken (callInput callState req now).2.

Lemma draft_after_turn callState req now :
  after callState req now = (turn (before callState req now) (speechOf req)).1.
Proof. apply draft_callInput_session. Qed.

Lemma draft_reply_turn callState req now :
  reply callState req now =
    Twiml.spoken (turn (before callState req now) (speechOf req)).2.
Proof.
  unfold reply, callInput, before, sessionOf. now destruct (turn _ _).
Qed.

(** The Maps the two handlers can build from the empty Map. *)
Definition reachable (callState : CallState) : Prop :=
  exists evs, callState = run ∅ evs.

(** A session never leaves [start], and holds at most a category. *)
Definition Flat (s : Session) : Prop :=
  stage s = "start" /\
  (data s = ∅ \/
   data s = <["service_category" := "domestic"]> ∅ \/
   data s = <["service_category" := "commercial"]> ∅).

Lemma assignCategory_flat speech s : Flat s -> Flat (assignCategory speech s).
Proof.
  intros [Hst Hd]. unfold assignCategory. cbv zeta.
  destruct Hd as [Hd|[Hd|Hd]]; rewrite Hd.
  - replace (truthyField ((∅ : gmap string string) !! "service_category"))
      with false by reflexivity. cbn [negb].
    destruct (someIncluded _ domesticHints), (someIncluded _ commercialHints);
      cbn [andb negb]; split; cbn [setData stage data]; rewrite ?Hd; auto.
  - cbn. split; auto.
  - cbn. split; auto.
Qed.

Lemma turn_flat s speech : Flat s -> Flat (turn s speech).1.
Proof.
  intros H. rewrite turn_session. destruct (truthy speech); [|exact H].
  apply assignCategory_flat. exact H.
Qed.

Lemma handle_flat callState ev :
  (forall sid, Flat (sessionOf callState sid)) ->
  forall sid, Flat (sessionOf (handle callState ev) sid).
Proof.
  intros Hall sid. destruct ev as [req now|req now];
    (destruct (decide (callSidOf req now = sid)) as [<-|Hne];
     [|rewrite draft_handle_other by exact Hne; apply Hall]); cbn [handle].
  - unfold callStart, sessionOf. cbn [fst]. rewrite lookup_insert_eq.
    split; [reflexivity | now left].
  - rewrite draft_callInput_session. apply turn_flat, Hall.
Qed.

Lemma reachable_flat callState sid :
  reachable callState -> Flat (sessionOf callState sid).
Proof.
  intros [evs ->]. revert sid.
  assert (H0 : forall sid, Flat (sessionOf (∅ : CallState) sid)).
  { intros sid. unfold sessionOf. rewrite lookup_empty. split; [reflexivity | now left]. }
  revert H0. generalize (∅ : CallState).
  induction evs as [|ev evs IH]; intros cs Hall; [exact Hall|].
  cbn [run fold_left]. apply IH. now apply handle_flat.
Qed.

(** The prompt of a turn with text, by what the session holds after the
    assignment. *)
Lemma turn_reply_flat s speech :
  Flat s -> speech <> "" ->
  Twiml.spoken (turn s speech).2 =
    match data (turn s speech).1 !! "service_category" with
    | None => CLARIFY_CATEGORY
    | Some c => if c =? "domestic" then ASK_DOMESTIC_TYPE else ASK_COMMERCIAL_TYPE
    end.
Proof.
  intros Hflat Hs. apply truthy_true_iff in Hs.
  assert (Hafter := turn_flat s speech Hflat). revert Hafter.
  rewrite turn_session. unfold turn. rewrite Hs. cbn [negb].
  intros [_ [Hd|[Hd|Hd]]]; rewrite Hd; reflexivity.
Qed.

(** Text that matches both hint lists leaves the session as it was. *)
Lemma assignCategory_ambiguous speech s :
  someIncluded (toLowerCase speech) domesticHints = true ->
  someIncluded (toLowerCase speech) commercialHints = true ->
  assignCategory speech s = s.
Proof.
  intros Hd Hc. unfold assignCategory. cbv zeta. rewrite Hd, Hc. cbn [andb negb].
  now destruct (negb _).
Qed.

End DraftIntake.

(** ** Scenarios *)

(** A call that was started with [/call/start] and nothing else. *)
Definition startedCall (callSid : string) : Server.CallState :=
  (Server.callStart ∅ {| CallSid := Some callSid; SpeechResult := None |}).1.

Definition says (callSid speech : string) : Request :=
  {| CallSid := Some callSid; SpeechResult := Some speech |}.

(** A started call that answered "office", then "deep clean": a commercial
    intake waiting for its job type. *)
Definition commercialCall (callSid : string) : Server.CallState :=
  runInputs (startedCall callSid) [says callSid "office"; says callSid "deep clean"].

(** ** The claims of the specification *)

(** C1 fails on [src/server.js] at text that matches both hint lists and
    holds a direct-answer word: [detectCategory] returns the empty string,
    then the direct-answer check accepts "home", so the stage advances and
    [service_category] is written. *)
Theorem C1_ambiguous_text_with_direct_answer_advances :
  someIncluded (toLowerCase "my home office") Server.domesticHints = true /\
  someIncluded (toLowerCase "my home office") Server.commercialHints = true /\
  Server.detectCategory "my home office" = "" /\
  stage (before (startedCall "CA1") (says "CA1" "my home office")) = "need_category" /\
  stage (after (startedCall "CA1") (says "CA1" "my home office")) = "need_service_type" /\
  data (after (startedCall "CA1") (says "CA1" "my home office")) !! "service_category"
    = Some "domestic".
Proof. vm_compute. repeat split. Qed.

(** C2: a prompt that mentions a currency marker ($, usd, dollar, bucks, in
    any letter case) is spoken as the fixed pounds-only prompt of the file,
    which is never the prompt itself; a prompt that mentions none is spoken
    as it is. Both [sayGather] functions behave so. *)
Theorem C2_gbp_guard_total (text : string) :
  (MentionsCurrency text ->
     Twiml.spoken (Server.sayGather text) = Server.GBP_ONLY /\
     Twiml.spoken (Server.sayGather text) <> text /\
     Twiml.spoken (Draft.sayGather text) = Draft.GBP_ONLY /\
     Twiml.spoken (Draft.sayGather text) <> text) /\
  (~ MentionsCurrency text ->
     Twiml.spoken (Server.sayGather text) = text /\
     Twiml.spoken (Draft.sayGather text) = text).
Proof.
  unfold Twiml.spoken, Server.sayGather, Draft.sayGather, gatherDocument. simpl.
  unfold Server.enforceGbpSpeech, Draft.ensureGbpOnly. split.
  - intros H. rewrite (mentions_currency_nonempty _ H).
    apply containsDollar_true_iff in H. rewrite H. simpl.
    repeat split; intros E; rewrite <- E in H; vm_compute in H; discriminate H.
  - intros H. apply containsDollar_false_iff in H. rewrite H.
    split; [now destruct (negb (truthy text)) | reflexivity].
Qed.

Lemma C2_gbp_guard_total_witness :
  (Twiml.spoken (Server.sayGather "That is 50 Dollars") = Server.GBP_ONLY /\
   Twiml.spoken (Server.sayGather "That is 50 Dollars") <> "That is 50 Dollars" /\
   Twiml.spoken (Draft.sayGather "That is 50 Dollars") = Draft.GBP_ONLY /\
   Twiml.spoken (Draft.sayGather "That is 50 Dollars") <> "That is 50 Dollars") /\
  (Twiml.spoken (Server.sayGather Server.ASK_JOB_TYPE) = Server.ASK_JOB_TYPE /\
   Twiml.spoken (Draft.sayGather Server.ASK_JOB_TYPE) = Server.ASK_JOB_TYPE).
Proof.
  split.
  - apply (proj1 (C2_gbp_guard_total "That is 50 Dollars")).
    apply containsDollar_true_iff. vm_compute. reflexivity.
  - apply (proj2 (C2_gbp_guard_total Server.ASK_JOB_TYPE)).
    apply containsDollar_false_iff. vm_compute. reflexivity.
Defined.

(** C3: in [src/server.js] every input turn leaves the stage of every session
    where it is or moves it to a strictly later stage of the forward order
    (need_category, need_service_type, need_job_type,
    need_property_and_postcode, next); over any sequence of input turns the
    position of the stage never decreases. *)
Theorem C3_stage_monotone :
  (forall (callState : Server.CallState) (req : Request) sid,
     stage (sessionOf (Server.callInput callState req).1 sid)
       = stage (sessionOf callState sid) \/
     stageRank (stage (sessionOf callState sid)) <
       stageRank (stage (sessionOf (Server.callInput callState req).1 sid))) /\
  (forall (reqs : list Request) (callState : Server.CallState) sid,
     stageRank (stage (sessionOf callState sid)) <=
       stageRank (stage (sessionOf (runInputs callState reqs) sid))).
Proof.
  split; [exact callInput_stage|].
  induction reqs as [|req reqs IH]; intros callState sid; [reflexivity|].
  cbn [runInputs fold_left]. fold (runInputs (Server.callInput callState req).1 reqs).
  specialize (IH (Server.callInput callState req).1 sid).
  destruct (callInput_stage callState req sid) as [E|L]; [rewrite E in IH|]; lia.
Qed.

(** C4 fails on [src/server.js] at text that holds a one-time cue and a
    regular cue: the two assignments of the need_job_type branch both run,
    the second one wins, so [job_type] is written as regular and the stage
    advances. *)
Theorem C4_both_cadences_written_as_regular :
  stage (before (commercialCall "CA1") (says "CA1" "a one-off, then weekly")) = "need_job_type" /\
  Server.oneTimeCue "a one-off, then weekly" = true /\
  Server.regularCue "a one-off, then weekly" = true /\
  stage (after (commercialCall "CA1") (says "CA1" "a one-off, then weekly"))
    = "need_property_and_postcode" /\
  data (after (commercialCall "CA1") (says "CA1" "a one-off, then weekly")) !! "job_type"
    = Some "regular".
Proof. vm_compute. repeat split. Qed.

(** C5 as stated fails: a failed extraction still appends the turn's text to
    the transcript. *)
Lemma C5_counterexample_transcript_changes :
  Server.speechOf (says "CA1" "hello there") = "hello there" /\
  extractionFails (before (startedCall "CA1") (says "CA1" "hello there")) "hello there" = true /\
  transcript (before (startedCall "CA1") (says "CA1" "hello there")) = [] /\
  transcript (after (startedCall "CA1") (says "CA1" "hello there")) = ["hello there"].
Proof. vm_compute. repeat split. Qed.

(** C5, amended: on a turn with non-empty text whose extraction fails, stage
    and collected data are unchanged, the transcript gains the turn's text,
    and the reply is the clarifying re-prompt of the current stage. *)
Theorem C5_failed_extraction_keeps_stage_and_data
    (callState : Server.CallState) (req : Request) :
  Server.speechOf req <> "" ->
  extractionFails (before callState req) (Server.speechOf req) = true ->
  stage (after callState req) = stage (before callState req) /\
  data (after callState req) = data (before callState req) /\
  transcript (after callState req) =
    (transcript (before callState req) ++ [Server.speechOf req])%list /\
  rePromptOf (stage (before callState req)) = Some (reply callState req).
Proof.
  intros Hs Hf. rewrite after_turn, reply_turn.
  destruct (turn_extraction_fails _ _ Hs Hf) as [-> Hp]. now repeat split.
Qed.

Lemma C5_failed_extraction_keeps_stage_and_data_witness :
  stage (after (startedCall "CA1") (says "CA1" "hello there")) =
    stage (before (startedCall "CA1") (says "CA1" "hello there")) /\
  data (after (startedCall "CA1") (says "CA1" "hello there")) =
    data (before (startedCall "CA1") (says "CA1" "hello there")) /\
  transcript (after (startedCall "CA1") (says "CA1" "hello there")) =
    (transcript (before (startedCall "CA1") (says "CA1" "hello there"))
       ++ [Server.speechOf (says "CA1" "hello there")])%list /\
  rePromptOf (stage (before (startedCall "CA1") (says "CA1" "hello there"))) =
    Some (reply (startedCall "CA1") (says "CA1" "hello there")).
Proof.
  apply (C5_failed_extraction_keeps_stage_and_data (startedCall "CA1")
           (says "CA1" "hello there")).
  - vm_compute. discriminate.
  - vm_compute. reflexivity.
Defined.

(** C6 as stated fails: the entry pushed is the trimmed text, not the text
    as delivered, and text of white space only is not pushed at all. *)
Lemma C6_counterexample_padded_text :
  transcript (before (startedCall "CA1") (says "CA1" " office ")) = [] /\
  transcript (after (startedCall "CA1") (says "CA1" " office ")) = ["office"] /\
  "office" <> " office " /\
  transcript (after (startedCall "CA1") (says "CA1" "  ")) = [].
Proof. vm_compute. repeat split. discriminate. Qed.

(** C6, amended: a turn whose recognized text is non-empty after trimming
    makes the transcript grow by exactly one entry, the trimmed text. *)
Theorem C6_transcript_grows_by_trimmed_text
    (callState : Server.CallState) (req : Request) :
  trim (default "" (SpeechResult req)) <> "" ->
  transcript (after callState req) =
    (transcript (before callState req) ++ [trim (default "" (SpeechResult req))])%list /\
  length (transcript (after callState req)) =
    S (length (transcript (before callState req))).
Proof.
  intros H. rewrite after_turn, turn_transcript.
  fold (Server.speechOf req) in *.
  rewrite (proj2 (truthy_true_iff _) H). split; [reflexivity|].
  rewrite length_app. simpl. lia.
Qed.

Lemma C6_transcript_grows_by_trimmed_text_witness :
  transcript (after (startedCall "CA1") (says "CA1" " office ")) =
    (transcript (before (startedCall "CA1") (says "CA1" " office ")) ++ ["office"])%list.
Proof.
  apply (C6_transcript_grows_by_trimmed_text (startedCall "CA1") (says "CA1" " office ")).
  vm_compute. discriminate.
Defined.

(** C7: a turn whose recognized text is empty (absent, empty, or white space
    only) leaves stage, collected data and transcript of the session as they
    were, at whatever stage the session is, and is answered with the generic
    re-prompt; a second empty turn gets the same document. *)
Theorem C7_empty_turn_is_a_no_op (callState : Server.CallState) (req : Request) :
  Server.speechOf req = "" ->
  stage (after callState req) = stage (before callState req) /\
  data (after callState req) = data (before callState req) /\
  transcript (after callState req) = transcript (before callState req) /\
  reply callState req = Server.DIDNT_CATCH /\
  (forall req' : Request,
     Server.speechOf req' = "" ->
     (Server.callInput (Server.callInput callState req).1 req').2
       = (Server.callInput callState req).2).
Proof.
  intros H. rewrite after_turn, reply_turn, H, turn_empty.
  repeat split. intros req' H'.
  now rewrite !callInput_turn, H, H', !turn_empty.
Qed.

Lemma C7_empty_turn_is_a_no_op_witness :
  Server.speechOf (says "CA1" "  ") = "" /\
  stage (after (startedCall "CA1") (says "CA1" "  ")) = "need_category" /\
  reply (startedCall "CA1") (says "CA1" "  ") = Server.DIDNT_CATCH.
Proof.
  pose proof (C7_empty_turn_is_a_no_op (startedCall "CA1") (says "CA1" "  ") eq_refl)
    as (Hst & _ & _ & Hr & _).
  split; [reflexivity|]. split; [|exact Hr].
  rewrite Hst. reflexivity.
Defined.

(** C8: a started call that hears "office", "deep clean" and "just a
    one-off" goes through need_service_type with category commercial, then
    need_job_type with the speech stored as the commercial service type, then
    need_property_and_postcode with job type one_time. *)
Theorem C8_commercial_path :
  stage (sessionOf (startedCall "CA1") (Some "CA1")) = "need_category" /\
  (let turn1 := runInputs (startedCall "CA1") [says "CA1" "office"] in
   data (sessionOf turn1 (Some "CA1")) !! "service_category" = Some "commercial" /\
   stage (sessionOf turn1 (Some "CA1")) = "need_service_type") /\
  (let turn2 := runInputs (startedCall "CA1")
                  [says "CA1" "office"; says "CA1" "deep clean"] in
   data (sessionOf turn2 (Some "CA1")) !! "commercial_service_type" = Some "deep clean" /\
   stage (sessionOf turn2 (Some "CA1")) = "need_job_type") /\
  (let turn3 := runInputs (startedCall "CA1")
                  [says "CA1" "office"; says "CA1" "deep clean";
                   says "CA1" "just a one-off"] in
   data (sessionOf turn3 (Some "CA1")) !! "job_type" = Some "one_time" /\
   stage (sessionOf turn3 (Some "CA1")) = "need_property_and_postcode").
Proof. vm_compute. repeat split. Qed.



(** C10: once a session holds [service_category], no later input turn
    changes it. In [src/server.js] the field is written at need_category
    only, and a session that holds it has left that stage for good; in
    [src/unnamed/part_000] the write is guarded by the field being unset.
    Sessions are those the handlers build from the empty Map; a
    [/call/start] for the same call replaces the session by a new one. *)
Theorem C10_service_category_written_once :
  (forall (evs1 evs2 : list ServerRuns.Event) sid v,
     Forall (fun ev => ~ ServerRuns.startsCall sid ev) evs2 ->
     data (ServerFacts.sessionOf (ServerRuns.run ∅ evs1) sid) !! "service_category"
       = Some v ->
     data (ServerFacts.sessionOf (ServerRuns.run ∅ (evs1 ++ evs2)) sid) !! "service_category"
       = Some v) /\
  (forall (evs1 evs2 : list DraftRuns.Event) sid v,
     Forall (fun ev => ~ DraftRuns.startsCall sid ev) evs2 ->
     data (DraftRuns.sessionOf (DraftRuns.run ∅ evs1) sid) !! "service_category"
       = Some v ->
     data (DraftRuns.sessionOf (DraftRuns.run ∅ (evs1 ++ evs2)) sid) !! "service_category"
       = Some v).
Proof.
  split; intros evs1 evs2 sid v Hevs Hv.
  - rewrite ServerRuns.run_app. apply ServerRuns.run_keeps_category; try assumption.
    apply ServerRuns.run_settled. exact ServerRuns.empty_settled.
  - rewrite DraftRuns.draft_run_app. apply DraftRuns.draft_run_keeps_category; try assumption.
    apply DraftRuns.run_truthy. exact DraftRuns.empty_truthy.
Qed.

Lemma C10_service_category_written_once_witness :
  data (ServerFacts.sessionOf
          (ServerRuns.run ∅ ([ServerRuns.Start (says "CA1" ""); ServerRuns.Input (says "CA1" "office")]
                             ++ [ServerRuns.Input (says "CA1" "my house");
                                 ServerRuns.Input (says "CA1" "domestic")]))
          (Some "CA1")) !! "service_category" = Some "commercial" /\
  data (DraftRuns.sessionOf
          (DraftRuns.run ∅ ([DraftRuns.Input (says "CA1" "office") 1%N]
                            ++ [DraftRuns.Input (says "CA1" "my house") 2%N]))
          "CA1") !! "service_category" = Some "commercial".
Proof.
  split.
  - apply (proj1 C10_service_category_written_once).
    + repeat constructor; cbn; tauto.
    + vm_compute. reflexivity.
  - apply (proj2 C10_service_category_written_once).
    + repeat constructor; cbn; tauto.
    + vm_compute. reflexivity.
Defined.

(** ** Further properties of the two files *)

(** X1: [includesAny(text, arr)] holds exactly when some phrase of [arr]
    occurs in the lower-cased text; such a phrase holds none of the letters
    A to Z, so a phrase written with a capital letter never matches; a
    missing text counts as the empty text. *)
Theorem X1_includesAny_lower_case_phrases (text : option string) (arr : list string) :
  Server.includesAny text arr = true <->
  exists x, In x arr /\ LowerCaseFacts.hasAsciiCapital x = false /\
            exists pre post, toLowerCase (default "" text) = pre +:+ x +:+ post.
Proof.
  unfold Server.includesAny. cbv zeta.
  replace (match text with
           | Some v => if truthy v then v else ""
           | None => ""
           end) with (default "" text)
    by (destruct text as [[|c v]|]; reflexivity).
  rewrite existsb_exists. split.
  - intros (x & Hin & Hx). exists x. split; [exact Hin|]. split.
    + exact (LowerCaseFacts.includes_lower_no_capital _ _ Hx).
    + now apply includes_true_iff.
  - intros (x & Hin & _ & Hx). exists x. split; [exact Hin|].
    now apply includes_true_iff.
Qed.

(** X2: at need_category, a turn with text keeps the stage exactly when the
    text matches both hint lists or neither, and holds none of the words
    home, domestic, business, commercial. *)
Theorem X2_category_reprompt_condition (callState : Server.CallState) (req : Request) :
  Server.speechOf req <> "" ->
  stage (before callState req) = "need_category" ->
  (stage (after callState req) = "need_category" <->
   someIncluded (toLowerCase (Server.speechOf req)) Server.domesticHints
     = someIncluded (toLowerCase (Server.speechOf req)) Server.commercialHints /\
   directAnswer (Server.speechOf req) = false).
Proof.
  intros Hs Hst. rewrite after_turn, turn_need_category by assumption.
  unfold directAnswer, Server.categoryOf, Server.detectCategory. cbv zeta.
  destruct (someIncluded _ Server.domesticHints),
           (someIncluded _ Server.commercialHints);
    cbn [andb negb truthy String.eqb Ascii.eqb Bool.eqb fst setStage stage];
    try (split; [discriminate | intros [? _]; discriminate]);
    destruct (includes _ "home"), (includes _ "domestic"),
             (includes _ "business"), (includes _ "commercial");
    cbn [orb negb truthy String.eqb Ascii.eqb Bool.eqb fst setStage stage
         pushTranscript];
    (split; [first [discriminate | intros _; now split] |
             first [intros [_ ?]; discriminate | intros _; exact Hst]]).
Qed.

Lemma X2_category_reprompt_condition_witness :
  stage (after (startedCall "CA1") (says "CA1" "it's for my office and my house"))
    = "need_category".
Proof.
  apply (X2_category_reprompt_condition (startedCall "CA1")
           (says "CA1" "it's for my office and my house")).
  - vm_compute. discriminate.
  - reflexivity.
  - vm_compute. split; reflexivity.
Defined.

(** X3: whatever text is given to [sayGather], in either file, the text that
    is spoken holds no currency marker, and guarding it a second time
    changes nothing. *)
Theorem X3_spoken_text_has_no_currency (text : string) :
  ~ MentionsCurrency (Twiml.spoken (Server.sayGather text)) /\
  ~ MentionsCurrency (Twiml.spoken (Draft.sayGather text)) /\
  Server.enforceGbpSpeech (Server.enforceGbpSpeech text) = Server.enforceGbpSpeech text /\
  Draft.ensureGbpOnly (Draft.ensureGbpOnly text) = Draft.ensureGbpOnly text.
Proof.
  assert (Hs : containsDollar (Server.enforceGbpSpeech text) = false).
  { unfold Server.enforceGbpSpeech. destruct (truthy text) eqn:Ht; cbn [negb].
    - destruct (containsDollar text) eqn:E; [reflexivity | exact E].
    - apply truthy_false_iff in Ht. now subst text. }
  assert (Hd : containsDollar (Draft.ensureGbpOnly text) = false).
  { unfold Draft.ensureGbpOnly.
    destruct (containsDollar text) eqn:E; [reflexivity | exact E]. }
  repeat split.
  - now apply containsDollar_false_iff.
  - now apply containsDollar_false_iff.
  - unfold Server.enforceGbpSpeech at 1. rewrite Hs.
    now destruct (negb (truthy (Server.enforceGbpSpeech text))).
  - unfold Draft.ensureGbpOnly at 1. now rewrite Hd.
Qed.

(** X4: every reply of the input handler of [src/server.js] is the gather
    document, pointing back to /call/input, of one of its nine fixed prompts
    spoken as written; what the caller said is never spoken back and never
    sets off the pounds-only replacement. *)
Theorem X4_input_replies_are_fixed_prompts (callState : Server.CallState) (req : Request) :
  (exists p, In p ServerHistory.inputPrompts /\
             (Server.callInput callState req).2 = gatherDocument p) /\
  reply callState req <> Server.GBP_ONLY.
Proof.
  rewrite callInput_turn. cbn [snd].
  destruct (ServerHistory.turn_prompt (before callState req) (Server.speechOf req))
    as (p & Hp & Hdoc).
  split; [now exists p|].
  rewrite reply_turn, Hdoc. cbn. intros ->.
  unfold ServerHistory.inputPrompts in Hp. cbn [In] in Hp.
  repeat (destruct Hp as [Hp|Hp]; [discriminate Hp|]). exact Hp.
Qed.

(** X5: the session of a call is decided by the requests addressed to that
    call alone: two Maps that agree on the call, run through two histories
    that hold the same requests for it, agree on the call afterwards. *)
Theorem X5_session_depends_on_own_requests
    (callState1 callState2 : Server.CallState) (evs1 evs2 : list ServerRuns.Event) sid :
  sessionOf callState1 sid = sessionOf callState2 sid ->
  List.filter (ServerHistory.addressed sid) evs1
    = List.filter (ServerHistory.addressed sid) evs2 ->
  sessionOf (ServerRuns.run callState1 evs1) sid
    = sessionOf (ServerRuns.run callState2 evs2) sid.
Proof.
  intros Hs Hevs. rewrite !ServerHistory.run_replay. now rewrite Hs, Hevs.
Qed.

Lemma X5_session_depends_on_own_requests_witness :
  sessionOf (ServerRuns.run ∅ [ServerRuns.Start (says "CA1" "");
                               ServerRuns.Input (says "CA2" "my flat");
                               ServerRuns.Input (says "CA1" "office")]) (Some "CA1")
  = sessionOf (ServerRuns.run (startedCall "CA3")
                 [ServerRuns.Start (says "CA1" "");
                  ServerRuns.Input (says "CA1" "office");
                  ServerRuns.Start (says "CA2" "")]) (Some "CA1").
Proof.
  apply X5_session_depends_on_own_requests.
  - vm_compute. reflexivity.
  - vm_compute. reflexivity.
Defined.

(** X6: the Map of [src/server.js] never loses a call: after any history its
    keys are the keys it had and the call identifiers of all requests served,
    with or without speech. *)
Theorem X6_sessions_are_never_removed
    (callState : Server.CallState) (evs : list ServerRuns.Event) :
  dom (ServerRuns.run callState evs)
    = list_to_set (map ServerHistory.eventSid evs) ∪ dom callState.
Proof.
  revert callState. induction evs as [|ev evs IH]; intros callState.
  - cbn. now rewrite (left_id_L ∅ (∪)).
  - cbn [ServerRuns.run fold_left map list_to_set].
    fold (ServerRuns.run (ServerRuns.handle callState ev) evs).
    rewrite IH, ServerHistory.handle_dom.
    rewrite !(assoc_L (∪)). f_equal. apply (comm_L (∪)).
Qed.

(** X7: over any run of input turns of [src/server.js], the transcript of a
    call is its old transcript followed by the trimmed, non-empty texts of
    the requests addressed to that call, in the order they were served. *)
Theorem X7_transcript_is_the_log_of_heard_text
    (callState : Server.CallState) (reqs : list Request) sid :
  transcript (sessionOf (runInputs callState reqs) sid) =
    (transcript (sessionOf callState sid) ++ ServerHistory.heard sid reqs)%list.
Proof. apply ServerHistory.runInputs_transcript. Qed.

(** X8: in every session built by the handlers of [src/server.js], each
    transcript entry is non-empty and has no white space at either end. *)
Theorem X8_transcript_entries_are_trimmed (callState : Server.CallState) sid :
  ServerRuns.reachable callState ->
  Forall (fun e => e <> "" /\ trim e = e) (transcript (sessionOf callState sid)).
Proof. apply ServerHistory.reachable_trimmed. Qed.

Lemma X8_transcript_entries_are_trimmed_witness :
  Forall (fun e => e <> "" /\ trim e = e)
    (transcript (sessionOf (ServerRuns.run ∅ [ServerRuns.Start (says "CA1" "");
                                              ServerRuns.Input (says "CA1" "  office ");
                                              ServerRuns.Input (says "CA1" "   ")])
                           (Some "CA1"))).
Proof.
  apply X8_transcript_entries_are_trimmed. eexists. reflexivity.
Defined.

(** X9: a stored [service_category] is "domestic" or "commercial", in every
    session built by the handlers of [src/server.js]; and it is stored
    exactly from need_service_type on. *)
Theorem X9_service_category_values (callState : Server.CallState) sid :
  ServerRuns.reachable callState ->
  (forall c, data (sessionOf callState sid) !! "service_category" = Some c ->
             c = "domestic" \/ c = "commercial") /\
  (is_Some (data (sessionOf callState sid) !! "service_category") <->
   2 <= stageRank (stage (sessionOf callState sid))).
Proof.
  intros Hr. pose proof (ServerIntake.reachable_wellformed callState sid Hr) as H.
  unfold ServerIntake.WellFormed in H.
  destruct H as [| |c Hc|v Hv|v Hv|v j Hv Hj|v w Hv Hw|v w j Hv Hw Hj];
    (split;
     [ intros c0 E; vm_compute in E;
       first [discriminate E | injection E as <-; auto]
     | split;
       [ intros Hk; first [vm_compute; lia | destruct Hk as [? Hk]; discriminate Hk]
       | intros Hk; first [eexists; reflexivity | vm_compute in Hk; lia] ] ]).
Qed.

Lemma X9_service_category_values_witness :
  (forall c, data (sessionOf (commercialCall "CA1") (Some "CA1")) !! "service_category"
               = Some c -> c = "domestic" \/ c = "commercial") /\
  (is_Some (data (sessionOf (commercialCall "CA1") (Some "CA1")) !! "service_category") <->
   2 <= stageRank (stage (sessionOf (commercialCall "CA1") (Some "CA1")))).
Proof.
  apply X9_service_category_values.
  exists [ServerRuns.Start (says "CA1" ""); ServerRuns.Input (says "CA1" "office");
          ServerRuns.Input (says "CA1" "deep clean")].
  reflexivity.
Defined.

(** X10: in every session built by the handlers of [src/server.js], the job
    type belongs to commercial intakes only: a session at need_job_type is
    commercial; a stored [job_type] is "one_time" or "regular" and sits in a
    commercial session; and a commercial session past need_job_type always
    holds one. *)
Theorem X10_job_type_is_commercial_only (callState : Server.CallState) sid :
  ServerRuns.reachable callState ->
  (stage (sessionOf callState sid) = "need_job_type" ->
   data (sessionOf callState sid) !! "service_category" = Some "commercial") /\
  (forall j, data (sessionOf callState sid) !! "job_type" = Some j ->
     (j = "one_time" \/ j = "regular") /\
     data (sessionOf callState sid) !! "service_category" = Some "commercial") /\
  (data (sessionOf callState sid) !! "service_category" = Some "commercial" ->
   4 <= stageRank (stage (sessionOf callState sid)) ->
   is_Some (data (sessionOf callState sid) !! "job_type")).
Proof.
  intros Hr. pose proof (ServerIntake.reachable_wellformed callState sid Hr) as H.
  unfold ServerIntake.WellFormed in H.
  destruct H as [| |c Hc|v Hv|v Hv|v j Hv Hj|v w Hv Hw|v w j Hv Hw Hj];
    (split;
     [ intros E; first [reflexivity | discriminate E]
     | split;
       [ intros j0 E; vm_compute in E;
         first [discriminate E
               | injection E as <-; split; [assumption | reflexivity]]
       | intros E Hk;
         first [eexists; reflexivity | vm_compute in Hk; lia
               | vm_compute in E; discriminate E] ] ]).
Qed.

Lemma X10_job_type_is_commercial_only_witness :
  data (sessionOf (commercialCall "CA1") (Some "CA1")) !! "service_category"
    = Some "commercial".
Proof.
  apply (X10_job_type_is_commercial_only (commercialCall "CA1") (Some "CA1")).
  - exists [ServerRuns.Start (says "CA1" ""); ServerRuns.Input (says "CA1" "office");
            ServerRuns.Input (says "CA1" "deep clean")].
    reflexivity.
  - reflexivity.
Defined.

(** X11: in every session built by the handlers of [src/server.js] that has
    gone past need_service_type, [service_type_raw] holds the non-empty text
    of one of the call's turns; the service type field of the session's
    category holds the same text and the field of the other category holds
    the empty string. *)
Theorem X11_service_type_fields (callState : Server.CallState) sid :
  ServerRuns.reachable callState ->
  3 <= stageRank (stage (sessionOf callState sid)) ->
  exists v,
    v <> "" /\ In v (transcript (sessionOf callState sid)) /\
    data (sessionOf callState sid) !! "service_type_raw" = Some v /\
    ((data (sessionOf callState sid) !! "service_category" = Some "commercial" /\
      data (sessionOf callState sid) !! "commercial_service_type" = Some v /\
      data (sessionOf callState sid) !! "domestic_service_type" = Some "") \/
     (data (sessionOf callState sid) !! "service_category" = Some "domestic" /\
      data (sessionOf callState sid) !! "domestic_service_type" = Some v /\
      data (sessionOf callState sid) !! "commercial_service_type" = Some "")).
Proof.
  intros Hr Hrank.
  pose proof (ServerIntake.reachable_wellformed callState sid Hr) as H.
  pose proof (ServerHistory.reachable_trimmed callState sid Hr) as Ht.
  assert (Hne : forall v, In v (transcript (sessionOf callState sid)) -> v <> "").
  { intros v Hv. exact (proj1 (proj1 (List.Forall_forall _ _) Ht v Hv)). }
  unfold ServerIntake.WellFormed in H.
  destruct H as [| |c Hc|v Hv|v Hv|v j Hv Hj|v w Hv Hw|v w j Hv Hw Hj];
    try (vm_compute in Hrank; lia);
    exists v; (split; [now apply Hne|]); (split; [exact Hv|]);
    (split; [reflexivity|]);
    first [left; repeat split; reflexivity | right; repeat split; reflexivity].
Qed.

Lemma X11_service_type_fields_witness :
  exists v,
    v <> "" /\ In v (transcript (sessionOf (commercialCall "CA1") (Some "CA1"))) /\
    data (sessionOf (commercialCall "CA1") (Some "CA1")) !! "service_type_raw" = Some v /\
    ((data (sessionOf (commercialCall "CA1") (Some "CA1")) !! "service_category"
        = Some "commercial" /\
      data (sessionOf (commercialCall "CA1") (Some "CA1")) !! "commercial_service_type"
        = Some v /\
      data (sessionOf (commercialCall "CA1") (Some "CA1")) !! "domestic_service_type"
        = Some "") \/
     (data (sessionOf (commercialCall "CA1") (Some "CA1")) !! "service_category"
        = Some "domestic" /\
      data (sessionOf (commercialCall "CA1") (Some "CA1")) !! "domestic_service_type"
        = Some v /\
      data (sessionOf (commercialCall "CA1") (Some "CA1")) !! "commercial_service_type"
        = Some "")).
Proof.
  apply X11_service_type_fields.
  - exists [ServerRuns.Start (says "CA1" ""); ServerRuns.Input (says "CA1" "office");
            ServerRuns.Input (says "CA1" "deep clean")].
    reflexivity.
  - vm_compute. lia.
Defined.

(** X12: in every session built by the handlers of [src/server.js], the stage
    is one of six names, the only fields ever written are six, and a session
    that has not got past need_category holds no field at all. *)
Theorem X12_stages_and_fields_are_closed (callState : Server.CallState) sid :
  ServerRuns.reachable callState ->
  In (stage (sessionOf callState sid))
     ["start"; "need_category"; "need_service_type"; "need_job_type";
      "need_property_and_postcode"; "next"] /\
  (forall k, is_Some (data (sessionOf callState sid) !! k) ->
     In k ["service_category"; "service_type_raw"; "commercial_service_type";
           "domestic_service_type"; "job_type"; "property_and_postcode_raw"]) /\
  (stageRank (stage (sessionOf callState sid)) <= 1 ->
   data (sessionOf callState sid) = ∅).
Proof.
  intros Hr. pose proof (ServerIntake.reachable_wellformed callState sid Hr) as H.
  unfold ServerIntake.WellFormed in H.
  destruct H as [| |c Hc|v Hv|v Hv|v j Hv Hj|v w Hv Hw|v w j Hv Hw Hj];
    (split; [cbn [In]; tauto|]);
    (split; [|intros Hk; first [reflexivity | vm_compute in Hk; lia]]);
    intros k Hk;
    unfold ServerIntake.commercialData, ServerIntake.domesticData in Hk;
    repeat (apply lookup_insert_is_Some in Hk;
            destruct Hk as [<-|[_ Hk]]; [cbn [In]; tauto|]);
    rewrite lookup_empty in Hk; destruct Hk as [? Hk]; discriminate Hk.
Qed.

Lemma X12_stages_and_fields_are_closed_witness :
  In (stage (sessionOf (commercialCall "CA1") (Some "CA1")))
     ["start"; "need_category"; "need_service_type"; "need_job_type";
      "need_property_and_postcode"; "next"].
Proof.
  apply (X12_stages_and_fields_are_closed (commercialCall "CA1") (Some "CA1")).
  exists [ServerRuns.Start (says "CA1" ""); ServerRuns.Input (says "CA1" "office");
          ServerRuns.Input (says "CA1" "deep clean")].
  reflexivity.
Defined.

(** X13: in every session built by the handlers of [src/server.js],
    [property_and_postcode_raw] is stored exactly when the stage is next, and
    it holds the non-empty, trimmed text of one of the call's turns. *)
Theorem X13_property_answer_is_a_heard_text (callState : Server.CallState) sid :
  ServerRuns.reachable callState ->
  (is_Some (data (sessionOf callState sid) !! "property_and_postcode_raw") <->
   stage (sessionOf callState sid) = "next") /\
  (forall w, data (sessionOf callState sid) !! "property_and_postcode_raw" = Some w ->
     In w (transcript (sessionOf callState sid)) /\ w <> "" /\ trim w = w).
Proof.
  intros Hr.
  pose proof (ServerIntake.reachable_wellformed callState sid Hr) as H.
  pose proof (ServerHistory.reachable_trimmed callState sid Hr) as Ht.
  assert (Hne : forall v, In v (transcript (sessionOf callState sid)) ->
                          v <> "" /\ trim v = v).
  { intros v Hv. exact (proj1 (List.Forall_forall _ _) Ht v Hv). }
  unfold ServerIntake.WellFormed in H.
  destruct H as [| |c Hc|v Hv|v Hv|v j Hv Hj|v w Hv Hw|v w j Hv Hw Hj];
    (split;
     [ split;
       [ intros Hk; first [reflexivity | destruct Hk as [? Hk]; discriminate Hk]
       | intros E; first [eexists; reflexivity | discriminate E] ]
     | intros w0 E; vm_compute in E;
       first [discriminate E
             | injection E as <-; split; [assumption | now apply Hne]] ]).
Qed.

Lemma X13_property_answer_is_a_heard_text_witness :
  is_Some (data (sessionOf
                   (runInputs (startedCall "CA1")
                      [says "CA1" "my flat"; says "CA1" "deep clean";
                       says "CA1" "a flat in SW1A 1AA"])
                   (Some "CA1")) !! "property_and_postcode_raw").
Proof.
  apply (X13_property_answer_is_a_heard_text
           (runInputs (startedCall "CA1")
              [says "CA1" "my flat"; says "CA1" "deep clean";
               says "CA1" "a flat in SW1A 1AA"]) (Some "CA1")).
  - exists [ServerRuns.Start (says "CA1" ""); ServerRuns.Input (says "CA1" "my flat");
            ServerRuns.Input (says "CA1" "deep clean");
            ServerRuns.Input (says "CA1" "a flat in SW1A 1AA")].
    reflexivity.
  - reflexivity.
Defined.

(** X14: a session of [src/server.js] that is at stage next stays there
    through any run of input turns with the fields it has, and each further
    turn of the call that carries text is answered with the default prompt:
    nothing more is collected and nothing is handed on. *)
Theorem X14_next_is_final (callState : Server.CallState) (reqs : list Request)
    (req : Request) :
  stage (before callState req) = "next" ->
  stage (before (runInputs callState reqs) req) = "next" /\
  data (before (runInputs callState reqs) req) = data (before callState req) /\
  stage (after (runInputs callState reqs) req) = "next" /\
  data (after (runInputs callState reqs) req) = data (before callState req) /\
  (Server.speechOf req <> "" ->
   reply (runInputs callState reqs) req = Server.DEFAULT_PROMPT).
Proof.
  intros Hst.
  assert (Hrun : stage (before (runInputs callState reqs) req) = "next" /\
                 data (before (runInputs callState reqs) req)
                   = data (before callState req)).
  { unfold before in *. revert callState Hst.
    induction reqs as [|r reqs IH]; intros callState Hst; [now split|].
    cbn [runInputs fold_left]. fold (runInputs (Server.callInput callState r).1 reqs).
    destruct (decide (CallSid r = CallSid req)) as [Heq|Hne].
    - assert (Hstep := ServerHistory.turn_next _ (Server.speechOf r) Hst).
      rewrite <- Heq in *. rewrite <- callInput_session in Hstep.
      destruct Hstep as (H1 & H2 & _).
      destruct (IH _ H1) as [H3 H4]. split; [exact H3 | congruence].
    - specialize (IH (Server.callInput callState r).1).
      rewrite callInput_other in IH by exact Hne. now apply IH. }
  destruct Hrun as [H1 H2].
  destruct (ServerHistory.turn_next _ (Server.speechOf req) H1) as (H3 & H4 & H5).
  rewrite after_turn, reply_turn. repeat split; try assumption. congruence.
Qed.

Lemma X14_next_is_final_witness :
  reply (runInputs
           (runInputs (startedCall "CA1")
              [says "CA1" "my flat"; says "CA1" "deep clean";
               says "CA1" "a flat in SW1A 1AA"])
           [says "CA1" "two bedrooms"; says "CA2" "office"])
        (says "CA1" "one bathroom") = Server.DEFAULT_PROMPT.
Proof.
  apply (X14_next_is_final
           (runInputs (startedCall "CA1")
              [says "CA1" "my flat"; says "CA1" "deep clean";
               says "CA1" "a flat in SW1A 1AA"])
           [says "CA1" "two bedrooms"; says "CA2" "office"]
           (says "CA1" "one bathroom")).
  - reflexivity.
  - vm_compute. discriminate.
Defined.

(** X15: the call identifier that [src/unnamed/part_000] resolves for a
    request is never empty; it is the request's CallSid when that is a
    non-empty string; and two requests without one get the same identifier
    only when they are served at the same clock reading, so that turns of a
    caller without CallSid do not share a session. *)
Theorem X15_draft_call_identifier (req req' : Request) (now now' : N) :
  Draft.callSidOf req now <> "" /\
  (forall sid, CallSid req = Some sid -> sid <> "" -> Draft.callSidOf req now = sid) /\
  (default "" (CallSid req) = "" -> default "" (CallSid req') = "" ->
   (Draft.callSidOf req now = Draft.callSidOf req' now' <-> now = now')).
Proof.
  unfold Draft.callSidOf. cbv zeta. split; [|split].
  - destruct (CallSid req) as [sid|]; [|discriminate].
    destruct (truthy sid) eqn:E; [now apply truthy_true_iff | discriminate].
  - intros sid -> Hne. now rewrite (proj2 (truthy_true_iff sid) Hne).
  - intros H H'.
    assert (Hlocal : forall r : Request, default "" (CallSid r) = "" -> forall n : N,
              match CallSid r with
              | Some sid => if truthy sid then sid else "local_" +:+ pretty n
              | None => "local_" +:+ pretty n
              end = String.append "local_" (pretty n)).
    { intros r Hr n. destruct (CallSid r) as [sid|]; [|reflexivity].
      cbv [default from_option id] in Hr. now subst sid. }
    rewrite (Hlocal req H), (Hlocal req' H'). split.
    + intros E. cbn [String.append] in E. injection E as E. now apply (inj pretty).
    + now intros ->.
Qed.

Lemma X15_draft_call_identifier_witness :
  Draft.callSidOf (says "CA1" "office") 7 = "CA1" /\
  (Draft.callSidOf {| CallSid := None; SpeechResult := Some "office" |} 7
     = Draft.callSidOf {| CallSid := Some ""; SpeechResult := Some "hello" |} 7).
Proof.
  split.
  - destruct (X15_draft_call_identifier (says "CA1" "office") (says "CA1" "office") 7 7)
      as (_ & H & _).
    apply H; [reflexivity | discriminate].
  - destruct (X15_draft_call_identifier
                {| CallSid := None; SpeechResult := Some "office" |}
                {| CallSid := Some ""; SpeechResult := Some "hello" |} 7 7)
      as (_ & _ & H).
    apply H; reflexivity.
Defined.

(** X16: in every session built by the handlers of
    [src/unnamed/part_000] the stage is start and the data holds nothing or
    only a [service_category] of "domestic" or "commercial"; a turn with
    text is answered with the category question while no category is held
    and with the service type question of the category once one is, and
    never with the property question. *)
Theorem X16_draft_never_passes_service_type
    (callState : Draft.CallState) (req : Request) (now : N) :
  DraftIntake.reachable callState ->
  Draft.speechOf req <> "" ->
  stage (DraftIntake.after callState req now) = "start" /\
  (data (DraftIntake.after callState req now) = ∅ /\
     DraftIntake.reply callState req now = Draft.CLARIFY_CATEGORY \/
   data (DraftIntake.after callState req now) = <["service_category" := "domestic"]> ∅ /\
     DraftIntake.reply callState req now = Draft.ASK_DOMESTIC_TYPE \/
   data (DraftIntake.after callState req now) = <["service_category" := "commercial"]> ∅ /\
     DraftIntake.reply callState req now = Draft.ASK_COMMERCIAL_TYPE) /\
  DraftIntake.reply callState req now <> Draft.ASK_PROPERTY.
Proof.
  intros Hr Hs.
  pose proof (DraftIntake.reachable_flat callState (Draft.callSidOf req now) Hr) as Hflat.
  fold (DraftIntake.before callState req now) in Hflat.
  pose proof (DraftIntake.turn_flat _ (Draft.speechOf req) Hflat) as [Hst Hd].
  pose proof (DraftIntake.turn_reply_flat _ _ Hflat Hs) as Hreply.
  rewrite <- DraftIntake.draft_after_turn in Hst, Hd, Hreply.
  rewrite <- DraftIntake.draft_reply_turn in Hreply.
  split; [exact Hst|].
  destruct Hd as [Hd|[Hd|Hd]]; rewrite Hd in Hreply; rewrite Hreply; rewrite Hd;
    (split; [|discriminate]); auto.
Qed.

Lemma X16_draft_never_passes_service_type_witness :
  stage (DraftIntake.after
           (DraftRuns.run ∅ [DraftRuns.Start (says "CA1" "") 1;
                             DraftRuns.Input (says "CA1" "office") 2])
           (says "CA1" "deep clean") 3) = "start".
Proof.
  apply (X16_draft_never_passes_service_type
           (DraftRuns.run ∅ [DraftRuns.Start (says "CA1" "") 1;
                             DraftRuns.Input (says "CA1" "office") 2])
           (says "CA1" "deep clean") 3).
  - eexists. reflexivity.
  - vm_compute. discriminate.
Defined.

(** X17: in [src/unnamed/part_000], a turn whose text matches both hint
    lists changes neither the stage nor the data of the session, whatever
    else the text holds; when the session holds no category, it is answered
    with the category question. *)
Theorem X17_draft_ambiguous_text_is_not_guessed
    (callState : Draft.CallState) (req : Request) (now : N) :
  someIncluded (toLowerCase (Draft.speechOf req)) Draft.domesticHints = true ->
  someIncluded (toLowerCase (Draft.speechOf req)) Draft.commercialHints = true ->
  stage (DraftIntake.after callState req now) = stage (DraftIntake.before callState req now) /\
  data (DraftIntake.after callState req now) = data (DraftIntake.before callState req now) /\
  (truthyField (data (DraftIntake.before callState req now) !! "service_category") = false ->
   DraftIntake.reply callState req now = Draft.CLARIFY_CATEGORY).
Proof.
  intros Hd Hc.
  assert (Hs : truthy (Draft.speechOf req) = true).
  { destruct (Draft.speechOf req); [discriminate Hd | reflexivity]. }
  rewrite DraftIntake.draft_after_turn, DraftIntake.draft_reply_turn, DraftRuns.turn_session, Hs.
  rewrite DraftIntake.assignCategory_ambiguous by assumption.
  repeat split. intros Hf. unfold Draft.turn. rewrite Hs. cbn [negb].
  rewrite DraftIntake.assignCategory_ambiguous by assumption.
  cbn [pushTranscript data]. now rewrite Hf.
Qed.

Lemma X17_draft_ambiguous_text_is_not_guessed_witness :
  data (DraftIntake.after ∅ (says "CA1" "my home office") 1) =
    data (DraftIntake.before ∅ (says "CA1" "my home office") 1) /\
  DraftIntake.reply ∅ (says "CA1" "my home office") 1 = Draft.CLARIFY_CATEGORY.
Proof.
  destruct (X17_draft_ambiguous_text_is_not_guessed ∅ (says "CA1" "my home office") 1)
    as (_ & H1 & H2); [reflexivity | reflexivity |].
  split; [exact H1 | apply H2; reflexivity].
Defined.

(** X18: a [/call/start] of [src/server.js] forgets the call: whatever the
    Map held and whatever was served before, the session of the call after
    the start and the requests that follow is the one a fresh process would
    have built from the start on. *)
Theorem X18_start_forgets_the_call
    (callState : Server.CallState) (evs1 evs2 : list ServerRuns.Event) (req : Request) :
  sessionOf (ServerRuns.run callState (evs1 ++ ServerRuns.Start req :: evs2)) (CallSid req)
  = sessionOf (ServerRuns.run ∅ (ServerRuns.Start req :: evs2)) (CallSid req).
Proof.
  assert (Ha : ServerHistory.addressed (CallSid req) (ServerRuns.Start req) = true)
    by (apply bool_decide_eq_true_2; reflexivity).
  rewrite !ServerHistory.run_replay, List.filter_app. cbn [List.filter].
  rewrite !Ha. unfold ServerHistory.replay. rewrite fold_left_app. reflexivity.
Qed.

(** X19: in [src/server.js], at the four stages that have a branch, a turn
    with text keeps the stage exactly when the extraction of the stage
    fails; that happens at need_category and need_job_type only, so at
    need_service_type and need_property_and_postcode any text advances the
    stage. *)
Theorem X19_only_failed_extraction_holds_the_stage
    (callState : Server.CallState) (req : Request) :
  Server.speechOf req <> "" ->
  1 <= stageRank (stage (before callState req)) <= 4 ->
  (stage (after callState req) = stage (before callState req) <->
   extractionFails (before callState req) (Server.speechOf req) = true) /\
  (extractionFails (before callState req) (Server.speechOf req) = true ->
   stage (before callState req) = "need_category" \/
   stage (before callState req) = "need_job_type").
Proof.
  intros Hs Hrank. rewrite after_turn. unfold extractionFails.
  destruct (turn_shape (before callState req) (Server.speechOf req))
    as [E|_ E|_ E|_ E|_ E|_ H1 H2 H3 H4]; [contradiction| | | | |].
  - rewrite turn_need_category by assumption. rewrite E.
    cbn [String.eqb Ascii.eqb Bool.eqb]. split; [|auto].
    destruct (truthy (Server.categoryOf (Server.speechOf req)));
      cbn [negb fst setStage stage]; split; try discriminate; auto.
  - rewrite turn_need_service_type by assumption. cbv zeta. rewrite E.
    cbn [String.eqb Ascii.eqb Bool.eqb]. split; [|discriminate].
    destruct (bool_decide _); cbn [fst setStage stage]; split; discriminate.
  - rewrite turn_need_job_type by assumption. cbv zeta. rewrite E.
    cbn [String.eqb Ascii.eqb Bool.eqb]. split; [|auto].
    rewrite assignJobType_push. cbn [pushTranscript data].
    destruct (truthyField _); cbn [negb fst setStage stage pushTranscript]; split;
      try discriminate; auto.
    intros _. now rewrite assignJobType_stage.
  - rewrite turn_need_property_and_postcode by assumption. rewrite E.
    cbn [String.eqb Ascii.eqb Bool.eqb fst setStage stage].
    split; [split; discriminate | discriminate].
  - exfalso. unfold stageRank in Hrank.
    apply String.eqb_neq in H1, H2, H3, H4. rewrite H1, H2, H3, H4 in Hrank.
    destruct (_ =? "next"); lia.
Qed.

Lemma X19_only_failed_extraction_holds_the_stage_witness :
  stage (after (commercialCall "CA1") (says "CA1" "not sure"))
    = stage (before (commercialCall "CA1") (says "CA1" "not sure")).
Proof.
  apply (X19_only_failed_extraction_holds_the_stage (commercialCall "CA1")
           (says "CA1" "not sure")).
  - vm_compute. discriminate.
  - vm_compute. lia.
  - vm_compute. reflexivity.
Defined.
